(** * Majority-voting ensemble notebook (medaidml/ensemble/mayority_voting.ipynb)

    A shallow embedding of the notebook's functions
    - [majority_voting]  (per-sample mode over the model axis),
    - [save_ensemble_predictions], [save_ensemble_scores],
      [save_confusion_matrix]  (the three writers),
    - the body of the experiment loop (result loader, reducer, writers),
    together with the fragments of numpy, pandas, scikit-learn and posixpath
    that these functions call.

    Conventions.
    - Python exceptions are values of [exn]; a computation that may raise
      has type [result A].
    - Class labels are [Z]; the elements of an int64 array lie in the int64
      range ([int64_array]).  The notebook compares, counts and indexes
      with labels; the one arithmetic operation on a label, the [max + 1]
      of [np.bincount], is computed in 64 bits with its wrap-around written
      out ([np.wrap64]).
    - Memory is not a resource of the model: the table of [np.bincount] is
      allocated whatever its (non-negative) length.
    - A text file is the [string] of its characters.  The writers end a
      line with the line feed (the notebook runs on POSIX paths); the
      reader takes the line feed, the carriage return and the two together
      as line ends.  The file system is a finite map from paths to
      contents; standard output is the list of the printed lines. *)

From Stdlib Require Import ZArith List Ascii String Decimal DecimalString DecimalZ Lia.
From Stdlib Require Import Permutation Sorted.
From stdpp Require Import base list strings gmap.

Local Open Scope Z_scope.

(** ** Python exceptions and the error monad *)

Inductive exn : Type :=
| ValueError
| TypeError
| KeyError
| FileNotFoundError
| ParserError
| EmptyDataError
| ImportError.

Inductive result (A : Type) : Type :=
| Ok (a : A)
| Raise (e : exn).
Arguments Ok {A} a.
Arguments Raise {A} e.

Definition bind {A B : Type} (c : result A) (k : A -> result B) : result B :=
  match c with
  | Ok a => k a
  | Raise e => Raise e
  end.

Declare Scope py_scope.
Delimit Scope py_scope with py.
Notation "x <~ c ;; k" := (bind c (fun x => k))
  (at level 100, c at next level, right associativity) : py_scope.
Local Open Scope py_scope.

(** [for x in xs: ys.append(f(x))], stopping at the first exception. *)
Fixpoint traverse {A B : Type} (f : A -> result B) (xs : list A) : result (list B) :=
  match xs with
  | [] => Ok []
  | x :: xs' => y <~ f x ;; ys <~ traverse f xs' ;; Ok (y :: ys)
  end.

(** ** numpy *)

Module np.

(** A two-dimensional integer array: its shape [(nrows, ncols)] and its
    rows.  [wf] is the invariant numpy maintains for every such array. *)
Record ndarray : Type := mk_ndarray {
  nrows : nat;
  ncols : nat;
  rows : list (list Z)
}.

(** [a.shape] *)
Definition shape (a : ndarray) : nat * nat := (nrows a, ncols a).

Definition wf (a : ndarray) : Prop :=
  length (rows a) = nrows a /\ Forall (fun r => length r = ncols a) (rows a).

(** [np.array(list_of_rows)].  Rows of different lengths raise ValueError
    (inhomogeneous shape).  The empty list gives numpy's empty array, on
    which nothing can be iterated; it is represented with shape (0, 0). *)
Definition array (l : list (list Z)) : result ndarray :=
  match l with
  | [] => Ok (mk_ndarray 0 0 [])
  | r :: l' =>
      if forallb (fun r' => Nat.eqb (length r') (length r)) l'
      then Ok (mk_ndarray (length l) (length r) l)
      else Raise ValueError
  end.

(** [arr[:, i]] *)
Definition column (a : ndarray) (i : nat) : list Z :=
  map (fun r => nth i r 0) (rows a).

(** The running minimum and maximum that [bincount] computes before it
    allocates the table of counts. *)
Definition minmax (x0 : Z) (x : list Z) : Z * Z :=
  fold_left (fun '(mn, mx) v =>
               (if v <? mn then v else mn, if mx <? v then v else mx))
            x (x0, x0).

(** The largest int64, and the value of a 64-bit signed computation:
    its result modulo 2^64, in the range from -2^63 to 2^63 - 1. *)
Definition int64_max : Z := 9223372036854775807.

Definition wrap64 (z : Z) : Z :=
  (z + 9223372036854775808) mod 18446744073709551616 - 9223372036854775808.

(** [np.bincount(x)]: ValueError when an element is negative; otherwise the
    length [ans_size = max(x) + 1] of the table is computed in 64 bits, a
    negative length (the maximum is the largest int64 and the sum has
    wrapped) is refused with ValueError, and the table [ans] of that length
    is filled by [ans[v] += 1] for each element [v].  The empty array gives
    the empty table. *)
Definition bincount (x : list Z) : result (list nat) :=
  match x with
  | [] => Ok []
  | x0 :: x' =>
      let '(mn, mx) := minmax x0 x' in
      if mn <? 0 then Raise ValueError
      else
        let ans_size := wrap64 (mx + 1) in
        if ans_size <? 0 then Raise ValueError
        else Ok (fold_left (fun ans v => alter S (Z.to_nat v) ans) x
                           (replicate (Z.to_nat ans_size) 0%nat))
  end.

(** The scan of [argmax]: [mp] is the best value so far, [mi] its index,
    [i] the index of the head of the remaining elements.  Only a strictly
    larger element replaces the best one. *)
Fixpoint argmax_scan (mi : nat) (mp : nat) (i : nat) (l : list nat) : nat :=
  match l with
  | [] => mi
  | c :: l' =>
      if (mp <? c)%nat then argmax_scan i c (S i) l'
      else argmax_scan mi mp (S i) l'
  end.

(** [a.argmax()]: ValueError on an empty array. *)
Definition argmax (l : list nat) : result nat :=
  match l with
  | [] => Raise ValueError
  | c :: l' => Ok (argmax_scan 0 c 1 l')
  end.

(** [np.apply_along_axis(f, axis=0, arr=a)] for a 2-D array and a function
    returning a scalar: ValueError when there is no column to iterate over,
    otherwise [f] applied to the columns from left to right. *)
Definition apply_along_axis0 (f : list Z -> result Z) (a : ndarray) : result (list Z) :=
  match ncols a with
  | O => Raise ValueError
  | S _ => traverse f (map (column a) (seq 0 (ncols a)))
  end.

End np.

(** ** The reducer *)

(** [lambda x: np.bincount(x).argmax()] *)
Definition vote (x : list Z) : result Z :=
  counts <~ np.bincount x ;;
  k <~ np.argmax counts ;;
  Ok (Z.of_nat k).

Definition majority_voting (predictions : np.ndarray) : result (list Z) :=
  np.apply_along_axis0 vote predictions.

(** ** Python strings and posixpath *)

(** [str(n)] for an integer. *)
Definition str_int (z : Z) : string := NilZero.string_of_int (Z.to_int z).

(** [s.split(sep)] for a one-character separator: the fields between the
    separators, empty fields included. *)
Fixpoint split (sep : ascii) (s : string) : list string :=
  match s with
  | EmptyString => [EmptyString]
  | String c s' =>
      if Ascii.eqb c sep then EmptyString :: split sep s'
      else match split sep s' with
           | [] => [String c EmptyString]
           | f :: fs => String c f :: fs
           end
  end.

Definition newline : ascii := "010"%char.
Definition carriage_return : ascii := "013"%char.
Definition comma : ascii := ","%char.
Definition slash : ascii := "/"%char.

Definition startswith (c : ascii) (s : string) : bool :=
  match s with
  | EmptyString => false
  | String c' _ => Ascii.eqb c' c
  end.

Fixpoint endswith (c : ascii) (s : string) : bool :=
  match s with
  | EmptyString => false
  | String c' EmptyString => Ascii.eqb c' c
  | String _ s' => endswith c s'
  end.

Module os_path.

(** One step of [posixpath.join]: an absolute component restarts the path,
    a separator is inserted unless the path is empty or already ends
    with one. *)
Definition join2 (path b : string) : string :=
  if startswith slash b then b
  else if String.eqb path "" || endswith slash path then path +:+ b
  else path +:+ "/" +:+ b.

Definition join (a : string) (p : list string) : string :=
  fold_left join2 p a.

End os_path.

(** ** pandas *)

Module pd.

(** A column of a frame, by dtype: [IntCol] is int64; [OtherCol] stands for
    every other dtype (text, floats, missing values) and keeps the cells as
    they are written. *)
Inductive column : Type :=
| IntCol (v : list Z)
| OtherCol (v : list string).

(** [index] is [None] for the default RangeIndex, [Some labels] for
    explicit row labels; [columns] keeps the columns in order. *)
Record DataFrame : Type := mk_DataFrame {
  index : option (list string);
  columns : list (string * column)
}.

Definition cells (c : column) : list string :=
  match c with
  | IntCol v => map str_int v
  | OtherCol v => v
  end.

Definition height (df : DataFrame) : nat :=
  match index df with
  | Some labels => length labels
  | None =>
      match columns df with
      | [] => 0%nat
      | (_, c) :: _ => length (cells c)
      end
  end.

(** [pd.DataFrame(v, columns=[name])] for a 1-D integer array [v]. *)
Definition DataFrame1 (v : list Z) (name : string) : DataFrame :=
  mk_DataFrame None [(name, IntCol v)].

(** [pd.DataFrame(a, index=idx, columns=cols)] for a 2-D integer array [a]:
    ValueError unless the shape of [a] is [(len(idx), len(cols))]. *)
Definition DataFrame2 (a : np.ndarray) (idx cols : list string) : result DataFrame :=
  if Nat.eqb (np.nrows a) (length idx) && Nat.eqb (np.ncols a) (length cols)
  then Ok (mk_DataFrame (Some idx)
             (zip cols (map (fun j => IntCol (np.column a j)) (seq 0 (np.ncols a)))))
  else Raise ValueError.

(** [df[name]]: KeyError when there is no such column. *)
Fixpoint assoc (name : string) (cols : list (string * column)) : option column :=
  match cols with
  | [] => None
  | (n, c) :: cols' => if String.eqb n name then Some c else assoc name cols'
  end.

Definition getitem (df : DataFrame) (name : string) : result column :=
  match assoc name (columns df) with
  | Some c => Ok c
  | None => Raise KeyError
  end.

(** A line of the file: the fields joined by commas, then a newline. *)
Definition line (fields : list string) : string :=
  String.concat "," fields +:+ String newline EmptyString.

Definition record_at (df : DataFrame) (i : nat) : list string :=
  map (fun nc => nth i (cells (snd nc)) ""%string) (columns df).

Definition index_labels (df : DataFrame) : list string :=
  match index df with
  | Some labels => labels
  | None => map (fun i => str_int (Z.of_nat i)) (seq 0 (height df))
  end.

(** [df.to_csv(path, index=with_index)]: the header line (with an empty
    first field for the index), then one line per row.  None of the
    strings the notebook writes needs quoting. *)
Definition to_csv (df : DataFrame) (with_index : bool) : string :=
  let names := map fst (columns df) in
  let records := map (record_at df) (seq 0 (height df)) in
  if with_index
  then String.concat "" (map line
         ((EmptyString :: names) :: zip_with cons (index_labels df) records))
  else String.concat "" (map line (names :: records)).

(** An integer cell: an optional sign and decimal digits. *)
Definition int_cell (s : string) : option Z :=
  match s with
  | String "+" s' => Z.of_uint <$> NilZero.uint_of_string s'
  | _ => Z.of_int <$> NilZero.int_of_string s
  end.

(** dtype inference for one column: int64 when there is a cell and every
    cell is an integer; a column without cells has dtype object.  The
    integers of the files are taken in the int64 range: pandas gives a
    numeral outside it another dtype. *)
Definition infer (cs : list string) : column :=
  match cs with
  | [] => OtherCol []
  | _ =>
      match mapM int_cell cs with
      | Some v => IntCol v
      | None => OtherCol cs
      end
  end.

(** Line feed, carriage return and the two together all end a line: the
    carriage returns are read as line feeds, and the blank lines this
    leaves are skipped with the others. *)
Fixpoint unify_eol (s : string) : string :=
  match s with
  | EmptyString => EmptyString
  | String c s' =>
      String (if Ascii.eqb c carriage_return then newline else c) (unify_eol s')
  end.

(** [pd.read_csv] on the text of a file, for comma-separated fields
    without quotes.  Empty lines are skipped; the first line is the header.
    A file with no line raises EmptyDataError.  The first record fixes the
    width of the table, the larger of its length and the length of the
    header: the fields it has beyond the header are leading index columns
    (their labels are kept as text, joined by commas when there are
    several).  A later record longer than the width raises ParserError; a
    shorter one is completed with missing cells, and a column with a
    missing cell is not an integer column. *)
Definition parse_csv (content : string) : result DataFrame :=
  match filter (fun l => l <> EmptyString) (split newline (unify_eol content)) with
  | [] => Raise EmptyDataError
  | header :: body =>
      let names := split comma header in
      let records := map (split comma) body in
      let width :=
        match records with
        | [] => length names
        | r :: _ => Nat.max (length names) (length r)
        end in
      let leading := (width - length names)%nat in
      if forallb (fun r => Nat.leb (length r) width) records
      then Ok (mk_DataFrame
                 (if Nat.eqb leading 0 then None
                  else Some (map (fun r => String.concat "," (firstn leading r)) records))
                 (zip names
                    (map (fun j => infer (map (fun r => nth (leading + j) r ""%string)
                                              records))
                         (seq 0 (length names)))))
      else Raise ParserError
  end.

(** [pd.read_csv(path)]: FileNotFoundError when the file does not exist. *)
Definition read_csv (files : gmap string string) (path : string) : result DataFrame :=
  match files !! path with
  | None => Raise FileNotFoundError
  | Some content => parse_csv content
  end.

End pd.

(** ** scikit-learn *)

Module sk.

Fixpoint insert_sorted (v : Z) (l : list Z) : list Z :=
  match l with
  | [] => [v]
  | h :: t =>
      if v <? h then v :: l
      else if v =? h then l
      else h :: insert_sorted v t
  end.

(** [unique_labels(y_true, y_pred)]: the distinct values of both vectors,
    in increasing order. *)
Definition unique_labels (y_true y_pred : list Z) : list Z :=
  fold_right insert_sorted [] (y_true ++ y_pred).

(** Number of samples whose true label is [a] and predicted label is [p]. *)
Definition count_pairs (a p : Z) (pairs : list (Z * Z)) : Z :=
  Z.of_nat (length (filter (fun tp => fst tp = a /\ snd tp = p) pairs)).

(** [confusion_matrix(y_true, y_pred)] on integer vectors: ValueError when
    the lengths differ; otherwise the square table over [unique_labels]
    whose entry (i, j) counts the samples of true class i predicted as
    class j. *)
Definition confusion_matrix (y_true y_pred : list Z) : result np.ndarray :=
  if Nat.eqb (length y_true) (length y_pred)
  then
    let labels := unique_labels y_true y_pred in
    let pairs := zip y_true y_pred in
    Ok (np.mk_ndarray (length labels) (length labels)
          (map (fun a => map (fun p => count_pairs a p pairs) labels) labels))
  else Raise ValueError.

End sk.

(** ** The notebook *)

(** What the notebook can observe and change: the files and the printed
    lines.  Directories are not represented: the notebook creates its three
    output directories before the loop, so its writes succeed. *)
Record world : Type := mk_world {
  files : gmap string string;
  stdout : list string
}.

Definition print (s : string) (w : world) : world :=
  mk_world (files w) (stdout w ++ [s]).

(** Opening a file for writing replaces what was there. *)
Definition write (path content : string) (w : world) : world :=
  mk_world (<[path := content]> (files w)) (stdout w).

Definition preds_path : list string :=
  [ "../ensembler/results/bert-base-multilingual-cased";
    "../ensembler/results/gpt2";
    "../ensembler/results/xlm-roberta-base";
    "../ensembler/results/fast_detect_gpt";
    "../ensembler/results/mdeberta-v3-base";
    "../ensembler/results/medical_mT5/" ]%string.

Definition experiments : list Z := [1; 2; 3; 4; 5].

Definition pred_file_name : string := "results_no_dataleak.csv".

Definition all_models : bool := true.

Definition SAVE : bool := true.

Definition predictions_file (ensemble_file_name : string) : string :=
  "../ensembler/predictions/" +:+ ensemble_file_name +:+ ".csv".

Definition scores_file (ensemble_file_name : string) : string :=
  "../ensembler/scores/" +:+ ensemble_file_name +:+ ".txt".

Definition matrix_file (ensemble_file_name : string) : string :=
  "../ensembler/matrix/" +:+ ensemble_file_name +:+ "_matrix.csv".

Definition save_ensemble_predictions
    (ensembler_pred : list Z) (ensemble_file_name : string) (w : world) : world :=
  let df_ensemble := pd.DataFrame1 ensembler_pred "prediction" in
  let file_predictions := predictions_file ensemble_file_name in
  let w := write file_predictions (pd.to_csv df_ensemble false) w in
  print (file_predictions +:+ " saved") w.

Definition save_confusion_matrix
    (y_true ensembler_pred : list Z) (ensemble_file_name : string)
    (w : world) : result world :=
  cm <~ sk.confusion_matrix y_true ensembler_pred ;;
  df_cm <~ pd.DataFrame2 cm ["Actual 0"; "Actual 1"]%string
                            ["Predicted 0"; "Predicted 1"]%string ;;
  let file_matrix := matrix_file ensemble_file_name in
  let w := write file_matrix (pd.to_csv df_cm true) w in
  Ok (print (file_matrix +:+ " saved") w).

(** [os.path.join(path, str(experiment), pred_file_name)] *)
Definition file_path (path : string) (experiment : Z) : string :=
  os_path.join path [str_int experiment; pred_file_name].

(** The loop over [preds_path]: [model_preds] and [y_true_loaded] are the
    two variables it updates. *)
Fixpoint load_loop (fs : gmap string string) (experiment : Z) (paths : list string)
    (model_preds : list pd.column) (y_true_loaded : option pd.column)
    : result (list pd.column * option pd.column) :=
  match paths with
  | [] => Ok (model_preds, y_true_loaded)
  | path :: paths' =>
      df <~ pd.read_csv fs (file_path path experiment) ;;
      predictions <~ pd.getitem df "Prediction" ;;
      let model_preds := model_preds ++ [predictions] in
      y_true_loaded <~
        match y_true_loaded with
        | None => y <~ pd.getitem df "label" ;; Ok (Some y)
        | Some _ => Ok y_true_loaded
        end ;;
      load_loop fs experiment paths' model_preds y_true_loaded
  end.

(** [model_preds = []; y_true_loaded = None] followed by the loop. *)
Definition load_results (fs : gmap string string) (experiment : Z) (paths : list string)
    : result (list pd.column * option pd.column) :=
  load_loop fs experiment paths [] None.

(** The values of a column as int64, when that is its dtype. *)
Definition int_values (c : pd.column) : option (list Z) :=
  match c with
  | pd.IntCol v => Some v
  | pd.OtherCol _ => None
  end.

Section Notebook.

(** Taken as given:
    - scikit-learn's [classification_report], which formats floating-point
      scores;
    - what [np.array] and the reducer do with columns that are not all
      int64, and what the two scoring writers do with a ground-truth column
      that is not int64. *)
Variable classification_report : list Z -> list Z -> result string.
Variable reduce_other_dtype : list pd.column -> result (list Z).
Variable score_other_dtype :
  list string -> list Z -> string -> world -> result world.

Definition save_ensemble_scores
    (y_true ensembler_pred : list Z) (ensemble_file_name : string)
    (w : world) : result world :=
  score_en <~ classification_report y_true ensembler_pred ;;
  let w := print score_en w in
  let file_scores := scores_file ensemble_file_name in
  let w := write file_scores score_en w in
  Ok (print (file_scores +:+ " saved") w).

(** The body of [for experiment in experiments].  With no path at all the
    reducer raises, so the ground truth is set whenever it is used. *)
Definition experiment_body (experiment : Z) (w : world) : result world :=
  loaded <~ load_results (files w) experiment preds_path ;;
  let model_preds := fst loaded in
  let y_true_loaded := snd loaded in
  ensembler_pred <~
    match mapM int_values model_preds with
    | Some rows =>
        all_predictions <~ np.array rows ;;
        majority_voting all_predictions
    | None => reduce_other_dtype model_preds
    end ;;
  let ensemble_file_name :=
    if all_models then "MV_ens_all_models_exp_" +:+ str_int experiment
    else "MV_ens_no_mT5_" +:+ str_int experiment in
  if SAVE then
    let w := save_ensemble_predictions ensembler_pred ensemble_file_name w in
    match y_true_loaded with
    | None => Raise TypeError
    | Some (pd.IntCol y_true) =>
        w <~ save_ensemble_scores y_true ensembler_pred ensemble_file_name w ;;
        save_confusion_matrix y_true ensembler_pred ensemble_file_name w
    | Some (pd.OtherCol y_true) =>
        score_other_dtype y_true ensembler_pred ensemble_file_name w
    end
  else Ok w.

(** [for experiment in experiments: ...] *)
Fixpoint run (exps : list Z) (w : world) : result world :=
  match exps with
  | [] => Ok w
  | experiment :: exps' => w <~ experiment_body experiment w ;; run exps' w
  end.

End Notebook.

(** ** The rest of the notebook: names and environment *)

(** [f"MV_ens_all_models_exp_{experiment}" if all_models else
    f"MV_ens_no_mT5_{experiment}"], the name under which the body of the
    loop saves. *)
Definition ensemble_file_name (experiment : Z) : string :=
  if all_models then "MV_ens_all_models_exp_" +:+ str_int experiment
  else "MV_ens_no_mT5_" +:+ str_int experiment.

(** [key in os.environ] *)
Definition in_environ (key : string) (environ : gmap string string) : bool :=
  bool_decide (is_Some (environ !! key)).

Definition get_notebook_environment (environ : gmap string string) : string :=
  if in_environ "KAGGLE_URL_BASE" environ then "Kaggle"
  else if in_environ "GOOGLE_CLOUD_PROJECT" environ then "GCC"
  else if in_environ "COLAB_GPU" environ then "Google Colab"
  else "local".

(** The [if]/[elif] chain that picks the dataset folder from the name of
    the environment.  [folder] starts as the empty string.  In the Colab
    branch [from google.colab import drive] and [drive.mount(...)] run
    before the assignment: [drive_mount] is what the two do, taken as
    given, and when they raise the cell stops with that exception. *)
Definition select_folder (drive_mount : result unit) (environment : string)
    : result string :=
  if String.eqb environment "Kaggle" then Ok "/kaggle/input/dataset-bioautex/"%string
  else if String.eqb environment "GCC" then Ok "dataset-bioautex/"%string
  else if String.eqb environment "Google Colab"
       then _ <~ drive_mount ;;
            Ok "/content/drive/My Drive/Biomedicina/dataset-bioautex/"%string
  else Ok ""%string.

(** * Statements

    The vocabulary of the properties proved below, and the data of their
    examples. *)

(** ** What a vote is *)

(** Number of occurrences of label [w] in the column [x]. *)
Definition occurrences (w : Z) (x : list Z) : nat := count_occ Z.eq_dec x w.

(** [v] is a most frequent value of [x]. *)
Definition most_frequent (v : Z) (x : list Z) : Prop :=
  forall w, (occurrences w x <= occurrences v x)%nat.

(** [v] is the smallest of the most frequent values of [x]. *)
Definition smallest_most_frequent (v : Z) (x : list Z) : Prop :=
  most_frequent v x /\ forall w, most_frequent w x -> v <= w.

(** Two different labels of [x] are both most frequent. *)
Definition tied (x : list Z) : Prop :=
  exists w w', w <> w' /\ w ∈ x /\ w' ∈ x /\ most_frequent w x /\ most_frequent w' x.

Definition nonnegative (a : np.ndarray) : Prop :=
  Forall (Forall (fun v => 0 <= v)) (np.rows a).

Definition binary (a : np.ndarray) : Prop :=
  Forall (Forall (fun v => v = 0 \/ v = 1)) (np.rows a).

(** No label is the largest int64. *)
Definition bounded (a : np.ndarray) : Prop :=
  Forall (Forall (fun v => v < np.int64_max)) (np.rows a).

(** The entries are 64-bit signed integers. *)
Definition int64_array (a : np.ndarray) : Prop :=
  Forall (Forall (fun v => - np.int64_max - 1 <= v <= np.int64_max)) (np.rows a).


(** The 3 x 3 matrix of the specification's scenario. *)
Definition scenario_3x3 : np.ndarray :=
  np.mk_ndarray 3 3 [[0; 1; 1]; [1; 1; 0]; [0; 1; 1]].


(** ** The result loader *)

(** The [Prediction] column that the loop reads from the file of [path]. *)
Definition read_prediction (fs : gmap string string) (experiment : Z) (path : string)
    : result pd.column :=
  df <~ pd.read_csv fs (file_path path experiment) ;;
  pd.getitem df "Prediction".

(** Two model files for experiment 1, and a second file system in which
    the labels of the second model's file are different. *)
Definition two_models : gmap string string :=
  {[ "m1/1/results_no_dataleak.csv" :=
       "Prediction,label" +:+ String newline "1,1" +:+ String newline "0,0"
         +:+ String newline "";
     "m2/1/results_no_dataleak.csv" :=
       "Prediction,label" +:+ String newline "1,1" +:+ String newline "1,0"
         +:+ String newline "" ]}%string.

Definition two_models_relabelled : gmap string string :=
  <[ "m2/1/results_no_dataleak.csv" :=
       "Prediction,label" +:+ String newline "1,0" +:+ String newline "1,1"
         +:+ String newline "" ]> two_models.

(** ** The confusion-matrix writer *)

(** The table of the specification, written from its words: a C x C table
    with the columns labelled [Predicted 0] .. [Predicted C-1] and the rows
    labelled [Actual 0] .. [Actual C-1], as CSV text. *)
Definition numbered (prefix : string) (C : nat) : list string :=
  map (fun k => prefix +:+ str_int (Z.of_nat k)) (seq 0 C).

Definition labelled_table (C : nat) (cm : list (list Z)) : string :=
  String.concat ""
    (map pd.line
       ((EmptyString :: numbered "Predicted " C)
          :: zip_with (fun l row => l :: map str_int row) (numbered "Actual " C) cm)).

(** The statement of the claim for one pair of vectors: with C the number
    of distinct labels of both vectors, the writer succeeds and leaves the
    labelled C x C confusion matrix in the matrix file. *)
Definition writes_labelled_table
    (y_true ensembler_pred : list Z) (ensemble_file_name : string) (w : world) : Prop :=
  let C := length (sk.unique_labels y_true ensembler_pred) in
  exists (cm : np.ndarray) (w' : world),
    sk.confusion_matrix y_true ensembler_pred = Ok cm /\
    np.nrows cm = C /\ np.ncols cm = C /\
    save_confusion_matrix y_true ensembler_pred ensemble_file_name w = Ok w' /\
    files w' !! matrix_file ensemble_file_name
      = Some (labelled_table C (np.rows cm)).

Definition empty_world : world := mk_world ∅ [].

(** ** Text *)

(** [c] occurs in [s]. *)
Fixpoint has_char (c : ascii) (s : string) : bool :=
  match s with
  | EmptyString => false
  | String c' s' => Ascii.eqb c' c || has_char c s'
  end.

(** The directory of a path: what stands before its last separator;
    [None] for a path without separator. *)
Fixpoint directory (p : string) : option string :=
  match p with
  | EmptyString => None
  | String c p' =>
      match directory p' with
      | Some d => Some (String c d)
      | None => if Ascii.eqb c slash then Some EmptyString else None
      end
  end.

(** ** The domain of the reducer *)

(** The matrices on which the reducer returns: at least one row, at least
    one column, no negative label. *)
Definition valid (a : np.ndarray) : Prop :=
  (1 <= np.nrows a)%nat /\ (1 <= np.ncols a)%nat /\ nonnegative a.

(** ** Sums of counts *)

Definition sumZ (l : list Z) : Z := fold_right Z.add 0 l.

(** The sum of all the entries of a matrix. *)
Definition entries_sum (a : np.ndarray) : Z := sumZ (map sumZ (np.rows a)).

(** ** Example worlds *)

(** A results file with the columns [Prediction] and [label]. *)
Definition results_csv (predictions labels : list Z) : string :=
  pd.to_csv (pd.mk_DataFrame None
               [("Prediction"%string, pd.IntCol predictions);
                ("label"%string, pd.IntCol labels)]) false.

(** The file system that holds [contents], in order, as the result files
    of the models of [preds_path] for experiment 1. *)
Definition model_files (contents : list string) : gmap string string :=
  list_to_map (zip (map (fun p => file_path p 1) preds_path) contents).

(** Six models that agree on three samples out of four. *)
Definition six_models : world :=
  mk_world
    (model_files
       [results_csv [0; 1; 1; 0] [0; 1; 0; 1];
        results_csv [0; 1; 1; 1] [0; 1; 0; 1];
        results_csv [0; 1; 0; 1] [0; 1; 0; 1];
        results_csv [0; 1; 1; 1] [0; 1; 0; 1];
        results_csv [0; 0; 1; 1] [0; 1; 0; 1];
        results_csv [1; 1; 1; 1] [0; 1; 0; 1]])
    [].

(** The same, but the file of the third model has one sample less. *)
Definition six_models_ragged : world :=
  mk_world
    (model_files
       [results_csv [0; 1; 1; 0] [0; 1; 0; 1];
        results_csv [0; 1; 1; 1] [0; 1; 0; 1];
        results_csv [0; 1; 0] [0; 1; 0];
        results_csv [0; 1; 1; 1] [0; 1; 0; 1];
        results_csv [0; 0; 1; 1] [0; 1; 0; 1];
        results_csv [1; 1; 1; 1] [0; 1; 0; 1]])
    [].

(** Stand-ins for the parts of scikit-learn and numpy that the notebook
    takes as given, for the examples. *)
Definition report_stub (y_true y_pred : list Z) : result string := Ok "report"%string.
Definition reduce_stub (model_preds : list pd.column) : result (list Z) := Raise TypeError.
Definition score_stub (y_true : list string) (y_pred : list Z) (name : string) (w : world)
    : result world := Raise ValueError.

(** The prediction columns of [six_models]. *)
Definition six_models_preds : list pd.column :=
  [pd.IntCol [0; 1; 1; 0]; pd.IntCol [0; 1; 1; 1]; pd.IntCol [0; 1; 0; 1];
   pd.IntCol [0; 1; 1; 1]; pd.IntCol [0; 0; 1; 1]; pd.IntCol [1; 1; 1; 1]].

(** The world after the body of the loop has run for experiment 1 on
    [six_models]. *)
Definition six_models_after : world :=
  match experiment_body report_stub reduce_stub score_stub 1 six_models with
  | Ok w' => w'
  | Raise _ => six_models
  end.

(** * Proofs *)


(** ** The error monad *)

Section Traverse.
Context {A B : Type} (f : A -> result B).

Lemma traverse_Ok (xs : list A) (ys : list B) :
  Forall2 (fun x y => f x = Ok y) xs ys -> traverse f xs = Ok ys.
Proof.
  induction 1 as [|x y xs ys Hxy _ IH]; simpl; [done|].
  by rewrite Hxy; simpl; rewrite IH.
Qed.

Lemma traverse_total (P : A -> Prop) (Q : A -> B -> Prop) (xs : list A) :
  (forall x, P x -> exists y, f x = Ok y /\ Q x y) ->
  Forall P xs ->
  exists ys, traverse f xs = Ok ys /\ Forall2 Q xs ys.
Proof.
  intros Hf. induction 1 as [|x xs Hx _ [ys [Hys HQ]]].
  - exists []. by split; [|constructor].
  - destruct (Hf x Hx) as [y [Hy Hq]].
    exists (y :: ys). simpl. rewrite Hy; simpl. rewrite Hys; simpl.
    split; [done|by constructor].
Qed.

Lemma traverse_Ok_inv (xs : list A) :
  forall ys, traverse f xs = Ok ys -> Forall2 (fun x y => f x = Ok y) xs ys.
Proof.
  induction xs as [|x xs IH]; intros ys; simpl.
  - intros [= <-]. constructor.
  - destruct (f x) as [y|e] eqn:Hy; simpl; [|done].
    destruct (traverse f xs) as [ys'|e]; simpl; [|done].
    intros [= <-]. constructor; [done|by apply IH].
Qed.

(** The loop only looks at the elements of the list. *)
Lemma traverse_ext_in (g : A -> result B) (xs : list A) :
  (forall x, x ∈ xs -> f x = g x) -> traverse f xs = traverse g xs.
Proof.
  induction xs as [|x xs IH]; intros Hfg; simpl; [done|].
  rewrite (Hfg x) by by left. rewrite IH; [done|].
  intros x' Hx'. apply Hfg. by right.
Qed.

(** When every element either succeeds or raises [e], and some element
    raises, the loop raises [e]. *)
Lemma traverse_Raise (e : exn) (xs : list A) :
  Forall (fun x => f x = Raise e \/ exists y, f x = Ok y) xs ->
  Exists (fun x => f x = Raise e) xs ->
  traverse f xs = Raise e.
Proof.
  induction 1 as [|x xs Hx Hxs IH]; intros Hex.
  - by apply Exists_nil in Hex.
  - simpl. destruct Hx as [Hx|[y Hy]].
    + by rewrite Hx.
    + rewrite Hy; simpl. apply Exists_cons in Hex as [Hex|Hex]; [congruence|].
      by rewrite (IH Hex).
Qed.

End Traverse.

(** ** numpy *)

Lemma argmax_scan_spec (l : list nat) :
  forall mi mp i : nat,
    (np.argmax_scan mi mp i l = mi /\ Forall (fun c => c <= mp)%nat l) \/
    (exists j c : nat,
        np.argmax_scan mi mp i l = (i + j)%nat /\ l !! j = Some c /\
        (mp < c)%nat /\ Forall (fun c' => c' <= c)%nat l /\
        forall j' c', (j' < j)%nat -> l !! j' = Some c' -> (c' < c)%nat).
Proof.
  induction l as [|c l IH]; intros mi mp i; simpl.
  - left. by split.
  - destruct (Nat.ltb_spec mp c) as [Hlt|Hge].
    + right. destruct (IH i c (S i)) as [[Hk Hall]|(j & c2 & Hk & Hj & Hc & Hall & Hfirst)].
      * exists 0%nat, c. rewrite Hk.
        split_and!; [lia|done|done|by constructor|lia].
      * exists (S j), c2. rewrite Hk.
        split_and!; [lia|done|lia|constructor; [lia|done]|].
        intros [|j'] c' Hj' Hc'; simpl in Hc'.
        -- injection Hc' as <-. lia.
        -- apply (Hfirst j'); [lia|done].
    + destruct (IH mi mp (S i)) as [[Hk Hall]|(j & c2 & Hk & Hj & Hc & Hall & Hfirst)].
      * left. split; [done|]. constructor; [lia|done].
      * right. exists (S j), c2. rewrite Hk.
        split_and!; [lia|done|done|constructor; [lia|done]|].
        intros [|j'] c' Hj' Hc'; simpl in Hc'.
        -- injection Hc' as <-. lia.
        -- apply (Hfirst j'); [lia|done].
Qed.

(** [argmax] returns the first index that holds the largest element. *)
Lemma argmax_spec (l : list nat) :
  l <> [] ->
  exists k m : nat,
    np.argmax l = Ok k /\ l !! k = Some m /\
    forall j c, l !! j = Some c -> (c <= m)%nat /\ ((j < k)%nat -> (c < m)%nat).
Proof.
  destruct l as [|c0 l]; [done|intros _]. simpl.
  destruct (argmax_scan_spec l 0 c0 1) as [[Hk Hall]|(j & c & Hk & Hj & Hc & Hall & Hfirst)].
  - exists 0%nat, c0. rewrite Hk. split_and!; [done|done|].
    intros j c Hjc. split; [|lia].
    destruct j as [|j]; simpl in Hjc; [injection Hjc as <-; lia|].
    rewrite Forall_lookup in Hall. by apply (Hall j).
  - exists (S j), c. rewrite Hk. split_and!; [done|done|].
    intros j0 c1 Hjc. split.
    + destruct j0 as [|j0]; simpl in Hjc; [injection Hjc as <-; lia|].
      rewrite Forall_lookup in Hall. by apply (Hall j0).
    + intros Hlt. destruct j0 as [|j0]; simpl in Hjc; [injection Hjc as <-; lia|].
      apply (Hfirst j0); [lia|done].
Qed.

Lemma minmax_fold (x : list Z) :
  forall a b mn mx : Z,
    fold_left (fun '(mn, mx) v =>
                 (if v <? mn then v else mn, if mx <? v then v else mx)) x (a, b)
      = (mn, mx) ->
    ((mn = a \/ mn ∈ x) /\ mn <= a /\ Forall (fun v => mn <= v) x) /\
    ((mx = b \/ mx ∈ x) /\ b <= mx /\ Forall (fun v => v <= mx) x).
Proof.
  induction x as [|v x IH]; intros a b mn mx; simpl.
  - intros [= <- <-]. split; (split_and!; [by left|lia|constructor]).
  - intros Hfold. apply IH in Hfold as [(Hin1 & Hle1 & Hall1) (Hin2 & Hle2 & Hall2)].
    split; split_and!.
    + destruct (Z.ltb_spec v a); destruct Hin1 as [->|Hin1];
        [right; by left|right; by right|by left|right; by right].
    + destruct (Z.ltb_spec v a); lia.
    + constructor; [|done]. destruct (Z.ltb_spec v a); lia.
    + destruct (Z.ltb_spec b v); destruct Hin2 as [->|Hin2];
        [right; by left|right; by right|by left|right; by right].
    + destruct (Z.ltb_spec b v); lia.
    + constructor; [|done]. destruct (Z.ltb_spec b v); lia.
Qed.

Lemma minmax_spec (x0 : Z) (x : list Z) (mn mx : Z) :
  np.minmax x0 x = (mn, mx) ->
  (mn ∈ x0 :: x /\ Forall (fun v => mn <= v) (x0 :: x)) /\
  (mx ∈ x0 :: x /\ Forall (fun v => v <= mx) (x0 :: x)).
Proof.
  intros H. apply minmax_fold in H as [(Hin1 & Hle1 & Hall1) (Hin2 & Hle2 & Hall2)].
  split; split.
  - destruct Hin1 as [->|?]; [by left|by right].
  - by constructor.
  - destruct Hin2 as [->|?]; [by left|by right].
  - by constructor.
Qed.

(** The table after the counting loop: every slot has grown by the number
    of elements that index it. *)
Lemma bincount_fold_lookup (x : list Z) :
  forall (init : list nat) (k : nat),
    fold_left (fun ans v => alter S (Z.to_nat v) ans) x init !! k
    = (fun n => n + count_occ Nat.eq_dec (map Z.to_nat x) k)%nat <$> init !! k.
Proof.
  induction x as [|v x IH]; intros init k; simpl.
  - destruct (init !! k); simpl; [f_equal; lia|done].
  - rewrite IH. destruct (Nat.eq_dec (Z.to_nat v) k) as [->|Hne].
    + rewrite list_lookup_alter_eq. destruct (init !! k); simpl; [f_equal; lia|done].
    + by rewrite list_lookup_alter_ne.
Qed.

Lemma bincount_fold_length (x : list Z) :
  forall init : list nat,
    length (fold_left (fun ans v => alter S (Z.to_nat v) ans) x init) = length init.
Proof.
  induction x as [|v x IH]; intros init; simpl; [done|].
  by rewrite IH, length_alter.
Qed.

Lemma count_occ_to_nat (x : list Z) (k : nat) :
  Forall (fun v => 0 <= v) x ->
  count_occ Nat.eq_dec (map Z.to_nat x) k = occurrences (Z.of_nat k) x.
Proof.
  unfold occurrences. induction 1 as [|v x Hv _ IH]; simpl; [done|].
  destruct (Nat.eq_dec (Z.to_nat v) k), (Z.eq_dec v (Z.of_nat k)); try lia.
  all: by rewrite IH.
Qed.

Lemma occurrences_pos (w : Z) (x : list Z) :
  w ∈ x <-> (0 < occurrences w x)%nat.
Proof. unfold occurrences. rewrite list_elem_of_In. apply count_occ_In. Qed.

(** *** 64-bit arithmetic *)

Lemma wrap64_small (z : Z) :
  - np.int64_max - 1 <= z <= np.int64_max -> np.wrap64 z = z.
Proof.
  unfold np.wrap64, np.int64_max. intros Hz. rewrite Z.mod_small; lia.
Qed.

Lemma wrap64_range (z : Z) :
  - np.int64_max - 1 <= np.wrap64 z <= np.int64_max.
Proof.
  unfold np.wrap64, np.int64_max.
  pose proof (Z.mod_pos_bound (z + 9223372036854775808) 18446744073709551616).
  lia.
Qed.

Lemma wrap64_le (z : Z) : 0 <= z -> np.wrap64 z <= z.
Proof.
  unfold np.wrap64. intros Hz.
  pose proof (Z.mod_le (z + 9223372036854775808) 18446744073709551616). lia.
Qed.

(** The sum [max + 1] wraps to a negative number exactly at the largest
    int64. *)
Lemma wrap64_succ_negative (mx : Z) :
  0 <= mx <= np.int64_max -> (np.wrap64 (mx + 1) < 0 <-> mx = np.int64_max).
Proof.
  intros Hmx. destruct (decide (mx = np.int64_max)) as [->|Hne].
  - split; [done|]. intros _. by vm_compute.
  - rewrite wrap64_small by lia. lia.
Qed.

(** On a non-empty column of non-negative labels below the largest int64
    [bincount] returns the table of the occurrences of 0, 1, ..., max. *)
Lemma bincount_spec (x : list Z) :
  x <> [] -> Forall (fun v => 0 <= v) x -> Forall (fun v => v < np.int64_max) x ->
  exists counts : list nat,
    np.bincount x = Ok counts /\ counts <> [] /\
    (forall k, (k < length counts)%nat ->
               counts !! k = Some (occurrences (Z.of_nat k) x)) /\
    (forall v, v ∈ x -> (Z.to_nat v < length counts)%nat).
Proof.
  destruct x as [|x0 x]; [done|intros _ Hnn Hbd].
  unfold np.bincount. destruct (np.minmax x0 x) as [mn mx] eqn:Hmm.
  apply minmax_spec in Hmm as [[Hmn _] [Hmxin Hmx]].
  rewrite Forall_forall in Hnn, Hbd. pose proof (Hnn _ Hmn) as Hmn0.
  pose proof (Hnn _ Hmxin) as Hmx0. pose proof (Hbd _ Hmxin) as Hmx1.
  destruct (Z.ltb_spec mn 0); [lia|].
  cbn zeta. rewrite wrap64_small by (unfold np.int64_max in *; lia).
  destruct (Z.ltb_spec (mx + 1) 0); [lia|].
  eexists. split; [done|].
  assert (Hlen : length (fold_left (fun ans v => alter S (Z.to_nat v) ans) (x0 :: x)
                           (replicate (Z.to_nat (mx + 1)) 0%nat))
                 = (Z.to_nat mx + 1)%nat)
    by (rewrite bincount_fold_length, length_replicate; lia).
  split_and!.
  - intros Hnil. rewrite Hnil in Hlen. simpl in Hlen. lia.
  - intros k Hk. rewrite Hlen in Hk.
    rewrite bincount_fold_lookup, lookup_replicate_2 by lia.
    rewrite <- (count_occ_to_nat (x0 :: x) k) by (by apply Forall_forall).
    reflexivity.
  - intros v Hv. rewrite Hlen. rewrite Forall_forall in Hmx.
    pose proof (Hmx _ Hv). pose proof (Hnn _ Hv). lia.
Qed.

Lemma bincount_negative (x : list Z) :
  Exists (fun v => v < 0) x -> np.bincount x = Raise ValueError.
Proof.
  intros Hex. destruct x as [|x0 x]; [by apply Exists_nil in Hex|].
  unfold np.bincount. destruct (np.minmax x0 x) as [mn mx] eqn:Hmm.
  apply minmax_spec in Hmm as [[_ Hmn] _].
  apply Exists_exists in Hex as (v & Hv & Hneg).
  rewrite Forall_forall in Hmn. pose proof (Hmn _ Hv).
  destruct (Z.ltb_spec mn 0); [done|lia].
Qed.

(** ** One vote *)

Lemma vote_spec (x : list Z) :
  x <> [] -> Forall (fun v => 0 <= v) x -> Forall (fun v => v < np.int64_max) x ->
  exists v : Z, vote x = Ok v /\ smallest_most_frequent v x /\ v ∈ x.
Proof.
  intros Hne Hnn Hbd.
  destruct (bincount_spec x Hne Hnn Hbd) as (counts & Hbc & Hcne & Hcount & Hidx).
  destruct (argmax_spec counts Hcne) as (k & m & Ham & Hk & Hmax).
  assert (Hklt : (k < length counts)%nat) by (by apply lookup_lt_is_Some; eexists).
  assert (Hm : m = occurrences (Z.of_nat k) x).
  { rewrite (Hcount k Hklt) in Hk. by injection Hk. }
  assert (Hslot : forall w, w ∈ x ->
            counts !! Z.to_nat w = Some (occurrences w x)).
  { intros w Hw. rewrite (Hcount _ (Hidx w Hw)). rewrite Forall_forall in Hnn.
    pose proof (Hnn w Hw). by rewrite Z2Nat.id. }
  assert (Hmf : most_frequent (Z.of_nat k) x).
  { intros w. destruct (decide (w ∈ x)) as [Hw|Hw].
    - destruct (Hmax _ _ (Hslot w Hw)). lia.
    - rewrite occurrences_pos in Hw. lia. }
  assert (Hin : Z.of_nat k ∈ x).
  { destruct x as [|x0 x']; [done|]. apply occurrences_pos.
    assert (x0 ∈ x0 :: x') as Hx0 by by left.
    pose proof (Hmf x0). apply occurrences_pos in Hx0. lia. }
  exists (Z.of_nat k). unfold vote. rewrite Hbc; simpl. rewrite Ham; simpl.
  split; [done|]. split; [|done]. split; [done|].
  intros w Hw.
  assert (w ∈ x) as Hwin.
  { apply occurrences_pos. apply occurrences_pos in Hin. pose proof (Hw (Z.of_nat k)). lia. }
  rewrite Forall_forall in Hnn. pose proof (Hnn w Hwin).
  destruct (Hmax _ _ (Hslot w Hwin)) as [_ Hfirst].
  pose proof (Hw (Z.of_nat k)).
  destruct (decide (Z.to_nat w < k)%nat) as [Hlt|Hge]; [specialize (Hfirst Hlt); lia|lia].
Qed.

Lemma vote_negative (x : list Z) :
  Exists (fun v => v < 0) x -> vote x = Raise ValueError.
Proof. intros H. unfold vote. by rewrite (bincount_negative x H). Qed.

Lemma vote_empty : vote [] = Raise ValueError.
Proof. reflexivity. Qed.

(** What a vote that returns says of its column. *)
Lemma vote_Ok_inv (x : list Z) (v : Z) :
  vote x = Ok v -> x <> [] /\ Forall (fun u => 0 <= u) x.
Proof.
  destruct x as [|x0 x]; [done|]. intros Hv. split; [done|].
  unfold vote, np.bincount in Hv.
  destruct (np.minmax x0 x) as [mn mx] eqn:Hmm.
  apply minmax_spec in Hmm as [[_ Hmn] _].
  destruct (Z.ltb_spec mn 0); [done|].
  eapply Forall_impl; [exact Hmn|]. simpl. lia.
Qed.

(** In an int64 column on which the vote returns, no label is the largest
    int64. *)
Lemma vote_Ok_bounded (x : list Z) (v : Z) :
  vote x = Ok v ->
  Forall (fun u => - np.int64_max - 1 <= u <= np.int64_max) x ->
  Forall (fun u => u < np.int64_max) x.
Proof.
  destruct x as [|x0 x]; [done|]. intros Hv Hint.
  unfold vote, np.bincount in Hv.
  destruct (np.minmax x0 x) as [mn mx] eqn:Hmm.
  apply minmax_spec in Hmm as [[Hmnin Hmn] [Hmxin Hmx]].
  destruct (Z.ltb_spec mn 0); [done|]. cbn zeta in Hv.
  destruct (Z.ltb_spec (np.wrap64 (mx + 1)) 0) as [|Hsize]; [done|].
  rewrite Forall_forall in Hint, Hmn. pose proof (Hint _ Hmxin). pose proof (Hmn _ Hmxin).
  assert (mx <> np.int64_max) as Hne.
  { intros Heq. apply (wrap64_succ_negative mx) in Heq; lia. }
  eapply Forall_impl; [exact Hmx|]. simpl. lia.
Qed.

(** The result of a vote is an index of the table: it is non-negative and
    below the largest int64. *)
Lemma vote_Ok_range (x : list Z) (v : Z) :
  vote x = Ok v -> 0 <= v < np.int64_max.
Proof.
  unfold vote, np.bincount. destruct x as [|x0 x]; [done|].
  destruct (np.minmax x0 x) as [mn mx]. destruct (mn <? 0); [done|]. cbn zeta.
  destruct (Z.ltb_spec (np.wrap64 (mx + 1)) 0) as [|Hsize]; [done|]. cbn [bind].
  set (counts := fold_left _ _ _).
  assert (length counts = Z.to_nat (np.wrap64 (mx + 1))) as Hlen
    by (unfold counts; by rewrite bincount_fold_length, length_replicate).
  destruct (np.argmax counts) as [k|e] eqn:Hk; [|done]. cbn [bind]. intros [= <-].
  assert (counts <> []) as Hne by (by intros Hnil; rewrite Hnil in Hk).
  destruct (argmax_spec counts Hne) as (k' & m & Hk' & Hm & _).
  rewrite Hk in Hk'. injection Hk' as <-.
  apply lookup_lt_Some in Hm. pose proof (wrap64_range (mx + 1)). lia.
Qed.

Lemma vote_raises_ValueError (x : list Z) (e : exn) :
  vote x = Raise e -> e = ValueError.
Proof.
  unfold vote, np.bincount, np.argmax. destruct x as [|x0 x]; simpl.
  - by intros [= <-].
  - destruct (np.minmax x0 x) as [mn mx]. destruct (mn <? 0); simpl.
    + by intros [= <-].
    + destruct (np.wrap64 (mx + 1) <? 0); simpl; [by intros [= <-]|].
      destruct (fold_left _ _ _); simpl; [by intros [= <-]|done].
Qed.

(** ** Columns of a matrix *)

Lemma lookup_map {A B : Type} (f : A -> B) (l : list A) (i : nat) :
  map f l !! i = f <$> l !! i.
Proof. apply (list_lookup_fmap f l i). Qed.

Lemma elem_of_map {A B : Type} (f : A -> B) (l : list A) (y : B) :
  y ∈ map f l <-> exists x, y = f x /\ x ∈ l.
Proof. apply (list_elem_of_fmap f l y). Qed.

Lemma column_length (a : np.ndarray) (i : nat) :
  length (np.column a i) = length (np.rows a).
Proof. unfold np.column. apply length_map. Qed.

Lemma column_nonempty (a : np.ndarray) (i : nat) :
  np.wf a -> (1 <= np.nrows a)%nat -> np.column a i <> [].
Proof.
  intros [Hlen _] HM Hnil. pose proof (column_length a i) as Hc.
  rewrite Hnil in Hc. simpl in Hc. lia.
Qed.

Lemma column_nonnegative (a : np.ndarray) (i : nat) :
  nonnegative a -> Forall (fun v => 0 <= v) (np.column a i).
Proof.
  unfold nonnegative, np.column. intros Hnn. apply Forall_forall. intros v Hv.
  apply elem_of_map in Hv as (r & -> & Hr).
  rewrite Forall_forall in Hnn. specialize (Hnn r Hr).
  destruct (nth_in_or_default i r 0) as [Hin| ->]; [|lia].
  rewrite Forall_forall in Hnn. apply Hnn. by apply list_elem_of_In.
Qed.

Lemma column_bounded (a : np.ndarray) (i : nat) :
  bounded a -> Forall (fun v => v < np.int64_max) (np.column a i).
Proof.
  unfold bounded, np.column. intros Hbd. apply Forall_forall. intros v Hv.
  apply elem_of_map in Hv as (r & -> & Hr).
  rewrite Forall_forall in Hbd. specialize (Hbd r Hr).
  destruct (nth_in_or_default i r 0) as [Hin| ->]; [|done].
  rewrite Forall_forall in Hbd. apply Hbd. by apply list_elem_of_In.
Qed.

(** Reading the per-column facts of a result off by index. *)
Lemma columns_lookup (Q : list Z -> Z -> Prop) (a : np.ndarray) (N : nat) (r : list Z) :
  Forall2 Q (map (np.column a) (seq 0 N)) r ->
  length r = N /\
  forall i, (i < N)%nat -> exists v, r !! i = Some v /\ Q (np.column a i) v.
Proof.
  intros HF. split.
  - apply Forall2_length in HF. by rewrite length_map, length_seq in HF.
  - intros i Hi.
    assert (map (np.column a) (seq 0 N) !! i = Some (np.column a i)) as Hcol.
    { by rewrite lookup_map, lookup_seq_lt. }
    destruct (Forall2_lookup_l _ _ _ _ _ HF Hcol) as (v & Hv & HQ). eauto.
Qed.

(** ** The reducer on a valid matrix *)

Lemma majority_voting_columns (a : np.ndarray) :
  np.wf a -> (1 <= np.nrows a)%nat -> (1 <= np.ncols a)%nat ->
  nonnegative a -> bounded a ->
  exists r : list Z,
    majority_voting a = Ok r /\
    Forall2 (fun col v => smallest_most_frequent v col /\ v ∈ col)
            (map (np.column a) (seq 0 (np.ncols a))) r.
Proof.
  intros Hwf HM HN Hnn Hbd. unfold majority_voting, np.apply_along_axis0.
  destruct (np.ncols a) as [|n] eqn:HNa; [lia|]. rewrite <- HNa.
  apply (traverse_total vote
           (fun col => col <> [] /\ Forall (fun v => 0 <= v) col /\
                       Forall (fun v => v < np.int64_max) col)).
  - intros col (Hne & Hcol & Hcolbd). by apply vote_spec.
  - apply Forall_forall. intros col Hcol.
    apply elem_of_map in Hcol as (i & -> & _).
    split_and!; [by apply column_nonempty|by apply column_nonnegative
                |by apply column_bounded].
Qed.

Lemma majority_voting_valid (a : np.ndarray) :
  np.wf a -> (1 <= np.nrows a)%nat -> (1 <= np.ncols a)%nat ->
  nonnegative a -> bounded a ->
  exists r : list Z,
    majority_voting a = Ok r /\ length r = np.ncols a /\
    forall i, (i < np.ncols a)%nat ->
      exists v, r !! i = Some v /\
                smallest_most_frequent v (np.column a i) /\ v ∈ np.column a i.
Proof.
  intros Hwf HM HN Hnn Hbd.
  destruct (majority_voting_columns a Hwf HM HN Hnn Hbd) as (r & Hr & HF).
  apply columns_lookup in HF as [Hlen Hcols].
  exists r. split_and!; [done|done|].
  intros i Hi. destruct (Hcols i Hi) as (v & Hv & Hsmf & Hin). eauto.
Qed.

(** ** Claims about the reducer *)

Lemma scenario_3x3_wf : np.wf scenario_3x3.
Proof. split; [reflexivity|]. repeat constructor. Qed.






(** C9.  On the matrix [[0,1,1],[1,1,0],[0,1,1]] the consensus is [0,1,1]. *)
Theorem C9_scenario_3x3 :
  majority_voting scenario_3x3 = Ok [0; 1; 1].
Proof. reflexivity. Qed.




(** C7.  A matrix that holds a negative label makes the reducer raise
    (numpy's ValueError, the specification's InvalidLabel); no consensus
    vector is returned. *)
Theorem C7_negative_label_raises (a : np.ndarray) :
  np.wf a ->
  (exists row v, row ∈ np.rows a /\ v ∈ row /\ v < 0) ->
  majority_voting a = Raise ValueError.
Proof.
  intros [Hlen Hrows] (row & v & Hrow & Hv & Hneg).
  rewrite Forall_forall in Hrows. pose proof (Hrows row Hrow) as Hrowlen.
  apply list_elem_of_lookup in Hv as [j Hj].
  assert (j < np.ncols a)%nat as HjN.
  { rewrite <- Hrowlen. apply lookup_lt_is_Some. by eexists. }
  assert (1 <= np.nrows a)%nat as HM.
  { rewrite <- Hlen. destruct (np.rows a); [by apply elem_of_nil in Hrow|simpl; lia]. }
  unfold majority_voting, np.apply_along_axis0.
  destruct (np.ncols a) as [|n] eqn:HNa; [lia|]. rewrite <- HNa.
  apply traverse_Raise.
  - apply Forall_forall. intros col Hcol.
    apply elem_of_map in Hcol as (i & -> & _).
    destruct (vote (np.column a i)) as [y|e] eqn:Hvote.
    + right. eauto.
    + left. by rewrite (vote_raises_ValueError _ e Hvote).
  - apply Exists_exists. exists (np.column a j). split.
    + apply elem_of_map. exists j. split; [done|].
      apply list_elem_of_In, in_seq. lia.
    + apply vote_negative, Exists_exists. exists v. split; [|done].
      apply elem_of_map. exists row. split; [|done].
      symmetry. apply nth_lookup_Some. done.
Qed.

Lemma C7_negative_label_raises_witness :
  majority_voting (np.mk_ndarray 2 2 [[0; 1]; [1; -1]]) = Raise ValueError.
Proof.
  apply (C7_negative_label_raises (np.mk_ndarray 2 2 [[0; 1]; [1; -1]])).
  - split; [reflexivity|]. repeat constructor.
  - exists [1; -1], (-1). split_and!.
    + simpl. right. left.
    + right. left.
    + lia.
Defined.

(** *** Binary labels, odd number of models *)

Lemma binary_nonnegative (a : np.ndarray) : binary a -> nonnegative a.
Proof.
  unfold binary, nonnegative. intros H.
  eapply Forall_impl; [exact H|]. intros r Hr.
  eapply Forall_impl; [exact Hr|]. simpl. lia.
Qed.

Lemma binary_bounded (a : np.ndarray) : binary a -> bounded a.
Proof.
  unfold binary, bounded. intros H.
  eapply Forall_impl; [exact H|]. intros r Hr.
  eapply Forall_impl; [exact Hr|]. simpl. unfold np.int64_max. lia.
Qed.

Lemma column_binary (a : np.ndarray) (i : nat) :
  binary a -> Forall (fun v => v = 0 \/ v = 1) (np.column a i).
Proof.
  unfold binary, np.column. intros Hb. apply Forall_forall. intros v Hv.
  apply elem_of_map in Hv as (r & -> & Hr).
  rewrite Forall_forall in Hb. specialize (Hb r Hr).
  destruct (nth_in_or_default i r 0) as [Hin| ->]; [|by left].
  rewrite Forall_forall in Hb. apply Hb. by apply list_elem_of_In.
Qed.

Lemma binary_occurrences (x : list Z) :
  Forall (fun v => v = 0 \/ v = 1) x ->
  (occurrences 0 x + occurrences 1 x = length x)%nat.
Proof.
  unfold occurrences. induction 1 as [|v x [-> | ->] _ IH]; simpl; [done| |].
  - destruct (Z.eq_dec 0 0), (Z.eq_dec 0 1); try lia.
  - destruct (Z.eq_dec 1 0), (Z.eq_dec 1 1); try lia.
Qed.

(** C5.  With an odd number M of rows and labels in {0, 1}, no column has
    two most frequent labels, and the element of the result for a column is
    the one label that more than half of the M rows hold there. *)
Theorem C5_odd_binary_strict_majority (a : np.ndarray) (i : nat) :
  np.wf a -> Nat.Odd (np.nrows a) -> binary a -> (i < np.ncols a)%nat ->
  ~ tied (np.column a i) /\
  exists (r : list Z) (v : Z),
    majority_voting a = Ok r /\ r !! i = Some v /\
    (np.nrows a < 2 * occurrences v (np.column a i))%nat /\
    forall w, (np.nrows a < 2 * occurrences w (np.column a i))%nat -> w = v.
Proof.
  intros Hwf [k Hk] Hb Hi.
  pose proof (column_binary a i Hb) as Hcol.
  pose proof (binary_occurrences _ Hcol) as Hsum.
  rewrite column_length, (proj1 Hwf) in Hsum.
  assert (Hmem : forall w, w ∈ np.column a i -> w = 0 \/ w = 1).
  { intros w Hw. rewrite Forall_forall in Hcol. by apply Hcol. }
  split.
  - intros (w & w' & Hne & Hw & Hw' & Hmf & Hmf').
    pose proof (Hmf w') as H1. pose proof (Hmf' w) as H2.
    destruct (Hmem w Hw) as [-> | ->], (Hmem w' Hw') as [-> | ->]; try done; lia.
  - destruct (majority_voting_valid a Hwf) as (r & Hr & _ & Hcols);
      [lia|lia|by apply binary_nonnegative|by apply binary_bounded|].
    destruct (Hcols i Hi) as (v & Hv & [Hmf _] & Hin).
    exists r, v. split_and!; [done|done| |].
    + pose proof (Hmf 0) as H0. pose proof (Hmf 1) as H1.
      destruct (Hmem v Hin) as [-> | ->]; lia.
    + intros w Hw.
      assert (w ∈ np.column a i) as Hwin by (apply occurrences_pos; lia).
      pose proof (Hmf 0) as H0. pose proof (Hmf 1) as H1.
      destruct (Hmem v Hin) as [-> | ->], (Hmem w Hwin) as [-> | ->]; try done; lia.
Qed.

Lemma C5_odd_binary_strict_majority_witness :
  ~ tied (np.column scenario_3x3 2) /\
  exists (r : list Z) (v : Z),
    majority_voting scenario_3x3 = Ok r /\ r !! 2%nat = Some v /\
    (np.nrows scenario_3x3 < 2 * occurrences v (np.column scenario_3x3 2))%nat /\
    forall w, (np.nrows scenario_3x3 < 2 * occurrences w (np.column scenario_3x3 2))%nat
              -> w = v.
Proof.
  apply (C5_odd_binary_strict_majority scenario_3x3 2).
  - exact scenario_3x3_wf.
  - exists 1%nat. reflexivity.
  - unfold binary, scenario_3x3; simpl. repeat constructor; lia.
  - simpl; lia.
Defined.

(** *** Ties *)




(** *** Identical rows *)


Lemma majority_voting_identical_rows (a : np.ndarray) (row : list Z) :
  np.wf a -> (1 <= np.nrows a)%nat -> (1 <= np.ncols a)%nat -> nonnegative a ->
  bounded a ->
  Forall (fun r => r = row) (np.rows a) ->
  majority_voting a = Ok row.
Proof.
  intros Hwf HM HN Hnn Hbd Hsame.
  destruct (majority_voting_valid a Hwf HM HN Hnn Hbd) as (r & Hr & Hlen & Hcols).
  rewrite Hr. f_equal.
  assert (length row = np.ncols a) as Hrow.
  { destruct Hwf as [HlenM Hrows]. destruct (np.rows a) as [|r0 rs]; [simpl in HlenM; lia|].
    apply Forall_cons in Hsame as [-> _]. by apply Forall_cons in Hrows as [? _]. }
  apply list_eq. intros i.
  destruct (decide (i < np.ncols a)%nat) as [Hi|Hi].
  - destruct (Hcols i Hi) as (v & Hv & _ & Hin). rewrite Hv.
    unfold np.column in Hin. apply elem_of_map in Hin as (r0 & -> & Hr0).
    rewrite Forall_forall in Hsame. rewrite (Hsame r0 Hr0).
    destruct (nth_lookup_or_length row i 0) as [Hnth|Hge]; [by rewrite Hnth|lia].
  - rewrite !lookup_ge_None_2; [done|lia|lia].
Qed.



(** ** The result loader *)

(** Once the ground truth is set, the loop keeps it and only appends the
    [Prediction] columns. *)
Lemma load_loop_keeps_ground_truth (fs : gmap string string) (experiment : Z)
    (paths : list string) :
  forall (model_preds : list pd.column) (y : pd.column),
    load_loop fs experiment paths model_preds (Some y)
    = (cols <~ traverse (read_prediction fs experiment) paths ;;
       Ok (model_preds ++ cols, Some y)).
Proof.
  induction paths as [|path paths IH]; intros model_preds y; simpl.
  - by rewrite app_nil_r.
  - unfold read_prediction at 1.
    destruct (pd.read_csv fs (file_path path experiment)) as [df|e]; simpl; [|done].
    destruct (pd.getitem df "Prediction") as [c|e]; simpl; [|done].
    rewrite IH.
    destruct (traverse (read_prediction fs experiment) paths) as [cols|e]; simpl; [|done].
    by rewrite <- app_assoc.
Qed.

(** C4.  When the files of an experiment load, the ground truth that the
    loop hands to the scorers is the [label] column of the file of the
    first path; and a file system that differs in anything but the first
    file and the [Prediction] columns of the later files (their [label]
    columns in particular) gives the same predictions and the same ground
    truth. *)
Theorem C4_ground_truth_from_first_file
    (fs fs' : gmap string string) (experiment : Z)
    (path : string) (paths : list string) (df : pd.DataFrame) (label : pd.column) :
  pd.read_csv fs (file_path path experiment) = Ok df ->
  pd.getitem df "label" = Ok label ->
  (forall p, p ∈ path :: paths ->
     exists c, read_prediction fs experiment p = Ok c) ->
  pd.read_csv fs' (file_path path experiment) = Ok df ->
  (forall p, p ∈ paths ->
     read_prediction fs' experiment p = read_prediction fs experiment p) ->
  exists model_preds : list pd.column,
    load_results fs experiment (path :: paths) = Ok (model_preds, Some label) /\
    load_results fs' experiment (path :: paths) = Ok (model_preds, Some label).
Proof.
  intros Hdf Hlabel Hall Hdf' Hsame.
  destruct (Hall path) as [c Hc]; [by left|].
  unfold read_prediction in Hc. rewrite Hdf in Hc. simpl in Hc.
  destruct (traverse_total (read_prediction fs experiment)
              (fun p => p ∈ path :: paths) (fun _ _ => True) paths)
    as (cols & Hcols & _).
  { intros p Hp. destruct (Hall p Hp) as [c' Hc']. eauto. }
  { apply Forall_forall. intros p Hp. by right. }
  exists ([c] ++ cols). unfold load_results. simpl.
  rewrite Hdf, Hdf'. simpl. rewrite Hc, Hlabel. simpl.
  rewrite !load_loop_keeps_ground_truth.
  rewrite (traverse_ext_in _ _ paths Hsame), Hcols. done.
Qed.

Lemma C4_ground_truth_from_first_file_witness :
  exists model_preds : list pd.column,
    load_results two_models 1 ["m1"; "m2"]%string
      = Ok (model_preds, Some (pd.IntCol [1; 0])) /\
    load_results two_models_relabelled 1 ["m1"; "m2"]%string
      = Ok (model_preds, Some (pd.IntCol [1; 0])).
Proof.
  apply (C4_ground_truth_from_first_file two_models two_models_relabelled 1
           "m1" ["m2"]%string
           (pd.mk_DataFrame None
              [("Prediction", pd.IntCol [1; 0]); ("label", pd.IntCol [1; 0])]%string)).
  - vm_compute. reflexivity.
  - vm_compute. reflexivity.
  - intros p Hp. apply elem_of_cons in Hp as [-> | Hp].
    + eexists. vm_compute. reflexivity.
    + apply list_elem_of_singleton in Hp as ->. eexists. vm_compute. reflexivity.
  - vm_compute. reflexivity.
  - intros p Hp. apply list_elem_of_singleton in Hp as ->. vm_compute. reflexivity.
Defined.

(** In the body of the loop that ground truth is the one the two scoring
    writers receive. *)
Lemma experiment_body_scores_against_loaded
    (classification_report : list Z -> list Z -> result string)
    (reduce_other_dtype : list pd.column -> result (list Z))
    (score_other_dtype : list string -> list Z -> string -> world -> result world)
    (experiment : Z) (w : world)
    (model_preds : list pd.column) (y_true : list Z)
    (rows : list (list Z)) (a : np.ndarray) (ensembler_pred : list Z) :
  load_results (files w) experiment preds_path
    = Ok (model_preds, Some (pd.IntCol y_true)) ->
  mapM int_values model_preds = Some rows ->
  np.array rows = Ok a ->
  majority_voting a = Ok ensembler_pred ->
  let name := ("MV_ens_all_models_exp_" +:+ str_int experiment)%string in
  experiment_body classification_report reduce_other_dtype score_other_dtype
    experiment w
  = (w1 <~ save_ensemble_scores classification_report y_true ensembler_pred name
             (save_ensemble_predictions ensembler_pred name w) ;;
     save_confusion_matrix y_true ensembler_pred name w1).
Proof.
  intros Hload Hint Harr Hmv. unfold experiment_body.
  rewrite Hload. cbn [bind fst snd]. rewrite Hint, Harr. cbn [bind].
  rewrite Hmv. reflexivity.
Qed.

(** ** The confusion-matrix writer *)

(** C3, as stated, fails for three classes: the writer labels two rows and
    two columns only, and the frame constructor refuses the 3 x 3 matrix. *)
Lemma C3_three_classes_counterexample :
  length (sk.unique_labels [0; 1; 2] [0; 2; 1]) = 3%nat /\
  save_confusion_matrix [0; 1; 2] [0; 2; 1] "MV_ens_all_models_exp_1" empty_world
    = Raise ValueError /\
  ~ writes_labelled_table [0; 1; 2] [0; 2; 1] "MV_ens_all_models_exp_1" empty_world.
Proof.
  split_and!; [reflexivity|reflexivity|].
  intros (cm & w' & _ & _ & _ & Hsave & _). discriminate Hsave.
Qed.

(** C3, amended.  For a ground-truth vector and a consensus vector of the
    same length that hold exactly two distinct labels between them, the
    writer leaves in the matrix file the 2 x 2 confusion matrix with rows
    [Actual 0], [Actual 1] and columns [Predicted 0], [Predicted 1], as a
    CSV table. *)
Theorem C3_binary_confusion_table
    (y_true ensembler_pred : list Z) (ensemble_file_name : string) (w : world) :
  length y_true = length ensembler_pred ->
  length (sk.unique_labels y_true ensembler_pred) = 2%nat ->
  writes_labelled_table y_true ensembler_pred ensemble_file_name w.
Proof.
  intros Hlen HC. unfold writes_labelled_table, save_confusion_matrix, sk.confusion_matrix.
  rewrite HC, Hlen, Nat.eqb_refl.
  destruct (sk.unique_labels y_true ensembler_pred) as [|l0 [|l1 [|l2 ls]]];
    try discriminate HC.
  eexists _, _. split_and!; [reflexivity|reflexivity|reflexivity|reflexivity|].
  cbn [files write print]. rewrite lookup_insert_eq. reflexivity.
Qed.

Lemma C3_binary_confusion_table_witness :
  writes_labelled_table [0; 1; 0; 1] [0; 1; 1; 1] "MV_ens_all_models_exp_1" empty_world.
Proof.
  apply (C3_binary_confusion_table [0; 1; 0; 1] [0; 1; 1; 1]
           "MV_ens_all_models_exp_1" empty_world).
  - reflexivity.
  - reflexivity.
Defined.

(** The text of the matrix file in the specification's scenario. *)
Example matrix_file_scenario :
  labelled_table 2 [[1; 1]; [0; 2]]
  = (",Predicted 0,Predicted 1" +:+ String newline
       ("Actual 0,1,1" +:+ String newline
          ("Actual 1,0,2" +:+ String newline "")))%string.
Proof. reflexivity. Qed.

(** The scenario of the specification: ground truth [0,1,0,1] against the
    consensus [0,1,1,1] gives the matrix [[1,1],[0,2]]. *)
Example confusion_matrix_scenario :
  sk.confusion_matrix [0; 1; 0; 1] [0; 1; 1; 1]
  = Ok (np.mk_ndarray 2 2 [[1; 1]; [0; 2]]).
Proof. reflexivity. Qed.

(** ** Text of the written files *)

Lemma append_cons (c : ascii) (s t : string) :
  (String c s +:+ t = String c (s +:+ t))%string.
Proof. reflexivity. Qed.

Lemma append_empty_l (t : string) : ("" +:+ t = t)%string.
Proof. reflexivity. Qed.

Lemma append_assoc (s1 s2 s3 : string) :
  ((s1 +:+ s2) +:+ s3 = s1 +:+ (s2 +:+ s3))%string.
Proof.
  induction s1 as [|c s1 IH]; [done|].
  by rewrite !append_cons, IH.
Qed.

Lemma append_empty_r (s : string) : (s +:+ "" = s)%string.
Proof.
  induction s as [|c s IH]; [done|].
  by rewrite append_cons, IH.
Qed.

Lemma concat_empty_cons (x : string) (xs : list string) :
  String.concat "" (x :: xs) = (x +:+ String.concat "" xs)%string.
Proof. destruct xs; cbn [String.concat]; [by rewrite append_empty_r|done]. Qed.

(** A field without separator, followed by a separator, is the first
    field of the split. *)
Lemma split_field (sep : ascii) (s rest : string) :
  has_char sep s = false ->
  split sep (s +:+ String sep rest) = s :: split sep rest.
Proof.
  induction s as [|c s IH]; intros H.
  - rewrite append_empty_l. cbn [split]. by rewrite Ascii.eqb_refl.
  - cbn [has_char] in H. apply orb_false_iff in H as [Hc Hs].
    rewrite append_cons. cbn [split]. rewrite Hc, (IH Hs). done.
Qed.

Lemma split_single (sep : ascii) (s : string) :
  has_char sep s = false -> split sep s = [s].
Proof.
  induction s as [|c s IH]; intros H; [done|].
  cbn [has_char] in H. apply orb_false_iff in H as [Hc Hs].
  cbn [split]. by rewrite Hc, (IH Hs).
Qed.

(** Splitting the text of one-field lines gives the lines back, and an
    empty string after the last newline. *)
Lemma split_lines (ls : list string) :
  Forall (fun l => has_char newline l = false) ls ->
  split newline (String.concat "" (map (fun l => pd.line [l]) ls)) = ls ++ [EmptyString].
Proof.
  induction 1 as [|l ls Hl _ IH]; [done|].
  cbn [map]. rewrite concat_empty_cons.
  change (pd.line [l]) with (l +:+ String newline EmptyString)%string.
  rewrite append_assoc, append_cons, append_empty_l.
  rewrite (split_field newline l _ Hl), IH. done.
Qed.

Lemma filter_nonempty_lines (ls : list string) :
  Forall (fun l => l <> EmptyString) ls ->
  filter (fun l => l <> EmptyString) (ls ++ [EmptyString]) = ls.
Proof.
  induction 1 as [|l ls Hl _ IH]; [done|].
  cbn [app]. rewrite filter_cons_True by done. by rewrite IH.
Qed.

(** *** Decimal numerals *)

(** The numeral of an integer has no character other than digits and a
    leading minus sign. *)
Lemma uint_chars (c : ascii) (d : uint) :
  uint_of_char c (Some Nil) = None ->
  has_char c (NilEmpty.string_of_uint d) = false.
Proof.
  intros Hc. induction d as [|d IH|d IH|d IH|d IH|d IH|d IH|d IH|d IH|d IH|d IH];
    cbn [NilEmpty.string_of_uint has_char]; [done|..].
  all: rewrite IH, orb_false_r.
  all: match goal with
       | |- Ascii.eqb ?k ?c' = false =>
           destruct (Ascii.eqb_spec k c') as [<-|]; [discriminate Hc|done]
       end.
Qed.

Lemma str_int_chars (c : ascii) (z : Z) :
  uint_of_char c (Some Nil) = None -> c <> "-"%char ->
  has_char c (str_int z) = false.
Proof.
  intros Hc Hminus.
  assert (Hu : forall d, has_char c (NilZero.string_of_uint d) = false).
  { intros d. pose proof (uint_chars c d Hc) as Hd.
    destruct d; try exact Hd. exact (uint_chars c (D0 Nil) Hc). }
  unfold str_int. destruct z as [|p|p]; cbn [Z.to_int NilZero.string_of_int].
  - apply Hu.
  - apply Hu.
  - cbn [has_char]. rewrite Hu, orb_false_r.
    destruct (Ascii.eqb_spec "-"%char c) as [<-|]; [done|done].
Qed.

Lemma str_int_nonempty (z : Z) : str_int z <> EmptyString.
Proof.
  unfold str_int. destruct z as [|p|p]; cbn [Z.to_int NilZero.string_of_int]; [done| |done].
  by destruct (Pos.to_uint p).
Qed.

(** A cell that does not start with a plus sign is read as a signed
    numeral. *)
Lemma int_cell_signed (s : string) :
  has_char "+" s = false -> pd.int_cell s = Z.of_int <$> NilZero.int_of_string s.
Proof.
  destruct s as [|c s]; [done|]. cbn [has_char]. intros H.
  apply orb_false_iff in H as [Hc _].
  destruct c as [[] [] [] [] [] [] [] []]; try reflexivity. discriminate Hc.
Qed.

(** Reading the numeral of [z] gives [z] back. *)
Lemma int_cell_str_int (z : Z) : pd.int_cell (str_int z) = Some z.
Proof.
  rewrite int_cell_signed by (by apply str_int_chars).
  unfold str_int. rewrite NilZero.isi.
  - cbn. by rewrite DecimalZ.of_to.
  - destruct z as [|p|p]; cbn [Z.to_int]; intros [= H];
      by apply DecimalPos.Unsigned.to_uint_nonnil in H.
  - destruct z as [|p|p]; cbn [Z.to_int]; intros [= H];
      by apply DecimalPos.Unsigned.to_uint_nonnil in H.
Qed.

(** *** Line ends *)

Lemma has_char_append (c : ascii) (s t : string) :
  has_char c (s +:+ t) = has_char c s || has_char c t.
Proof.
  induction s as [|k s IH]; [done|].
  rewrite append_cons. cbn [has_char]. by rewrite IH, orb_assoc.
Qed.

Lemma has_char_lines (c : ascii) (ls : list string) :
  c <> newline -> Forall (fun l => has_char c l = false) ls ->
  has_char c (String.concat "" (map (fun l => pd.line [l]) ls)) = false.
Proof.
  intros Hc. induction 1 as [|l ls Hl _ IH]; [done|].
  cbn [map]. rewrite concat_empty_cons, has_char_append, IH, orb_false_r.
  change (pd.line [l]) with (l +:+ String newline EmptyString)%string.
  rewrite has_char_append, Hl. cbn [has_char orb].
  rewrite orb_false_r. by destruct (Ascii.eqb_spec newline c) as [<-|].
Qed.

(** A text without carriage return has line feeds as its only line ends. *)
Lemma unify_eol_id (s : string) :
  has_char carriage_return s = false -> pd.unify_eol s = s.
Proof.
  induction s as [|c s IH]; [done|]. cbn [has_char pd.unify_eol]. intros H.
  apply orb_false_iff in H as [Hc Hs]. by rewrite Hc, (IH Hs).
Qed.

(** *** The predictions file *)

Lemma map_nth_seq {A B : Type} (f : A -> B) (d : A) (l : list A) :
  map (fun i => f (nth i l d)) (seq 0 (length l)) = map f l.
Proof.
  induction l as [|x l IH]; [done|].
  cbn [length seq map nth]. f_equal.
  rewrite <- seq_shift, map_map. exact IH.
Qed.

(** The file written for a one-column frame: the name of the column, then
    one numeral per line. *)
Lemma to_csv_one_column (v : list Z) (name : string) :
  pd.to_csv (pd.DataFrame1 v name) false
  = String.concat "" (map (fun l => pd.line [l]) (name :: map str_int v)).
Proof.
  unfold pd.to_csv, pd.DataFrame1, pd.height, pd.record_at.
  cbn [pd.index pd.columns map fst snd pd.cells]. f_equal. f_equal.
  rewrite (map_nth_seq (fun c => [c]) ""%string (map str_int v)).
  by rewrite !map_map.
Qed.

(** Reading that file gives the frame back. *)
Lemma parse_csv_one_column (v : list Z) (name : string) :
  v <> [] -> name <> EmptyString ->
  has_char newline name = false -> has_char carriage_return name = false ->
  has_char comma name = false ->
  pd.parse_csv (pd.to_csv (pd.DataFrame1 v name) false) = Ok (pd.DataFrame1 v name).
Proof.
  intros Hv Hne Hnl Hcr Hcomma. rewrite to_csv_one_column. unfold pd.parse_csv.
  rewrite unify_eol_id.
  2:{ apply has_char_lines; [done|]. constructor; [done|].
      apply Forall_forall. intros l Hl.
      apply elem_of_map in Hl as (z & -> & _). by apply str_int_chars. }
  rewrite split_lines.
  2:{ constructor; [done|]. apply Forall_forall. intros l Hl.
      apply elem_of_map in Hl as (z & -> & _). by apply str_int_chars. }
  rewrite filter_nonempty_lines.
  2:{ constructor; [done|]. apply Forall_forall. intros l Hl.
      apply elem_of_map in Hl as (z & -> & _). apply str_int_nonempty. }
  rewrite (split_single comma name Hcomma).
  assert (Hrec : map (split comma) (map str_int v) = map (fun z => [str_int z]) v).
  { rewrite map_map. apply map_ext. intros z. apply split_single.
    by apply str_int_chars. }
  rewrite Hrec.
  assert (Hfirst : match map (fun z => [str_int z]) v with
                   | [] => length [name]
                   | r :: _ => Nat.max (length [name]) (length r)
                   end = 1%nat) by by destruct v.
  rewrite Hfirst. cbn [length Nat.sub Nat.eqb Nat.add].
  assert (Hwidth : forallb (fun r => Nat.leb (length r) 1)
                     (map (fun z => [str_int z]) v) = true).
  { apply forallb_forall. intros r Hr. apply in_map_iff in Hr as (z & <- & _). done. }
  rewrite Hwidth. unfold pd.DataFrame1. f_equal. f_equal.
  cbn [length seq map zip zip_with]. rewrite map_map. cbn [nth].
  unfold pd.infer.
  change (map (fun x => str_int x) v) with (str_int <$> v).
  rewrite (mapM_fmap_Some pd.int_cell str_int v int_cell_str_int).
  by destruct v.
Qed.

(** Whatever the reducer returns has at least one element, and its
    elements are non-negative and below the largest int64. *)
Lemma majority_voting_result (a : np.ndarray) (v : list Z) :
  majority_voting a = Ok v ->
  v <> [] /\ Forall (fun z => 0 <= z < np.int64_max) v.
Proof.
  unfold majority_voting, np.apply_along_axis0.
  destruct (np.ncols a) as [|n] eqn:HN; [done|]. rewrite <- HN.
  intros H. apply traverse_Ok_inv in H. split.
  - apply Forall2_length in H. rewrite length_map, length_seq, HN in H.
    intros ->. done.
  - eapply Forall2_Forall_r; [exact H|]. apply Forall_forall.
    intros col _ z Hz. by apply vote_Ok_range in Hz.
Qed.

(** C8.  A consensus vector that is written with
    [save_ensemble_predictions], read back from the predictions file and
    stacked as the only row of a prediction matrix, is what the reducer
    returns on that matrix. *)
Theorem C8_predictions_roundtrip
    (a : np.ndarray) (v : list Z) (ensemble_file_name : string) (w : world) :
  majority_voting a = Ok v ->
  exists (df : pd.DataFrame) (m : np.ndarray),
    pd.read_csv (files (save_ensemble_predictions v ensemble_file_name w))
                (predictions_file ensemble_file_name) = Ok df /\
    pd.getitem df "prediction" = Ok (pd.IntCol v) /\
    np.array [v] = Ok m /\
    np.shape m = (1%nat, length v) /\
    majority_voting m = Ok v.
Proof.
  intros Hv. apply majority_voting_result in Hv as [Hne Hnn].
  exists (pd.DataFrame1 v "prediction"), (np.mk_ndarray 1 (length v) [v]).
  split_and!.
  - unfold save_ensemble_predictions, pd.read_csv. cbn [files write print].
    rewrite lookup_insert_eq. by apply parse_csv_one_column.
  - reflexivity.
  - reflexivity.
  - reflexivity.
  - apply majority_voting_identical_rows.
    + split; [reflexivity|]. by repeat constructor.
    + cbn; lia.
    + cbn. destruct v; [done|cbn; lia].
    + unfold nonnegative. cbn. repeat constructor.
      eapply Forall_impl; [exact Hnn|]. cbn. lia.
    + unfold bounded. cbn. repeat constructor.
      eapply Forall_impl; [exact Hnn|]. cbn. lia.
    + cbn. by repeat constructor.
Qed.

Lemma C8_predictions_roundtrip_witness :
  exists (df : pd.DataFrame) (m : np.ndarray),
    pd.read_csv (files (save_ensemble_predictions [0; 1; 1]
                          "MV_ens_all_models_exp_1" empty_world))
                (predictions_file "MV_ens_all_models_exp_1") = Ok df /\
    pd.getitem df "prediction" = Ok (pd.IntCol [0; 1; 1]) /\
    np.array [[0; 1; 1]] = Ok m /\
    np.shape m = (1%nat, length [0; 1; 1]) /\
    majority_voting m = Ok [0; 1; 1].
Proof.
  apply (C8_predictions_roundtrip scenario_3x3 [0; 1; 1]
           "MV_ens_all_models_exp_1" empty_world).
  reflexivity.
Defined.

(** * Further properties of the notebook *)

(** ** The reducer: domain, order of the models, majorities *)


Lemma traverse_map {A B C : Type} (f : B -> result C) (g : A -> B) (xs : list A) :
  traverse f (map g xs) = traverse (fun x => f (g x)) xs.
Proof. induction xs as [|x xs IH]; simpl; [done|by rewrite IH]. Qed.


(** A matrix on which the reducer returns is valid. *)
Lemma majority_voting_Ok_valid (a : np.ndarray) (r : list Z) :
  np.wf a -> majority_voting a = Ok r -> valid a.
Proof.
  intros [Hlen Hrows] Hr. unfold majority_voting, np.apply_along_axis0 in Hr.
  destruct (np.ncols a) as [|n] eqn:HN; [done|]. rewrite <- HN in Hr, Hrows.
  apply traverse_Ok_inv in Hr.
  assert (Hcol : forall j, (j < np.ncols a)%nat ->
            np.column a j <> [] /\ Forall (fun u => 0 <= u) (np.column a j)).
  { intros j Hj.
    assert (map (np.column a) (seq 0 (np.ncols a)) !! j = Some (np.column a j)) as Hc.
    { by rewrite lookup_map, lookup_seq_lt. }
    destruct (Forall2_lookup_l _ _ _ _ _ Hr Hc) as (v & _ & Hv).
    by apply vote_Ok_inv in Hv. }
  unfold valid. rewrite HN. split_and!; [|lia|].
  - destruct (Hcol 0%nat) as [Hne _]; [lia|].
    rewrite <- Hlen, <- (column_length a 0). destruct (np.column a 0); [done|simpl; lia].
  - unfold nonnegative. apply Forall_forall. intros row Hrow.
    apply Forall_forall. intros v Hv.
    apply list_elem_of_lookup in Hv as [j Hj].
    rewrite Forall_forall in Hrows. pose proof (Hrows row Hrow) as Hrowlen.
    assert (j < np.ncols a)%nat as HjN.
    { rewrite <- Hrowlen. apply lookup_lt_is_Some. by eexists. }
    destruct (Hcol j HjN) as [_ Hnn]. rewrite Forall_forall in Hnn. apply Hnn.
    apply elem_of_map. exists row. split; [|done].
    symmetry. by apply nth_lookup_Some.
Qed.

(** On a matrix of int64 labels on which the reducer returns, every label
    is below the largest int64. *)
Lemma majority_voting_Ok_bounded (a : np.ndarray) (r : list Z) :
  np.wf a -> int64_array a -> majority_voting a = Ok r -> bounded a.
Proof.
  intros [Hlen Hrows] Hint Hr. unfold majority_voting, np.apply_along_axis0 in Hr.
  destruct (np.ncols a) as [|n] eqn:HN; [done|]. rewrite <- HN in Hr, Hrows.
  apply traverse_Ok_inv in Hr.
  unfold bounded. apply Forall_forall. intros row Hrow.
  apply Forall_forall. intros u Hu.
  apply list_elem_of_lookup in Hu as [j Hj].
  rewrite Forall_forall in Hrows. pose proof (Hrows row Hrow) as Hrowlen.
  assert (j < np.ncols a)%nat as HjN.
  { rewrite <- Hrowlen. apply lookup_lt_is_Some. by eexists. }
  assert (map (np.column a) (seq 0 (np.ncols a)) !! j = Some (np.column a j)) as Hc.
  { by rewrite lookup_map, lookup_seq_lt. }
  destruct (Forall2_lookup_l _ _ _ _ _ Hr Hc) as (v & _ & Hv).
  assert (u ∈ np.column a j) as Hin.
  { apply elem_of_map. exists row. split; [|done]. symmetry. by apply nth_lookup_Some. }
  apply vote_Ok_bounded in Hv.
  - rewrite Forall_forall in Hv. by apply Hv.
  - apply Forall_forall. intros u' Hu'.
    apply elem_of_map in Hu' as (row' & -> & Hrow').
    unfold int64_array in Hint. rewrite Forall_forall in Hint.
    pose proof (Hint row' Hrow') as Hrow64. rewrite Forall_forall in Hrow64.
    destruct (nth_lookup_or_length row' j 0) as [Hnth|Hge].
    + apply Hrow64. by apply list_elem_of_lookup_2 in Hnth.
    + rewrite nth_overflow by lia. unfold np.int64_max. lia.
Qed.



(** X20.  Whenever the reducer returns on a well-formed matrix of int64
    labels, element i of the result is the smallest of the most frequent
    labels of column i, and occurs in that column: the reducer returns
    nothing else. *)
Theorem majority_voting_Ok_mode (a : np.ndarray) (r : list Z) :
  np.wf a -> int64_array a -> majority_voting a = Ok r ->
  length r = np.ncols a /\
  forall i, (i < np.ncols a)%nat ->
    exists v, r !! i = Some v /\ smallest_most_frequent v (np.column a i) /\
              v ∈ np.column a i.
Proof.
  intros Hwf Hint Hr.
  destruct (majority_voting_Ok_valid a r Hwf Hr) as (HM & HN & Hnn).
  pose proof (majority_voting_Ok_bounded a r Hwf Hint Hr) as Hbd.
  destruct (majority_voting_valid a Hwf HM HN Hnn Hbd) as (r0 & Hr0 & Hlen & Hcols).
  rewrite Hr in Hr0. injection Hr0 as <-. done.
Qed.

Lemma majority_voting_Ok_mode_witness :
  length [0; 1; 1] = np.ncols scenario_3x3 /\
  forall i, (i < np.ncols scenario_3x3)%nat ->
    exists v, [0; 1; 1] !! i = Some v /\
              smallest_most_frequent v (np.column scenario_3x3 i) /\
              v ∈ np.column scenario_3x3 i.
Proof.
  apply (majority_voting_Ok_mode scenario_3x3 [0; 1; 1]).
  - exact scenario_3x3_wf.
  - unfold int64_array; cbn. repeat constructor; done.
  - reflexivity.
Defined.

(** *** Order of the models *)

Lemma occurrences_Permutation (x x' : list Z) (w : Z) :
  x ≡ₚ x' -> occurrences w x = occurrences w x'.
Proof. intros H. unfold occurrences. by apply Permutation_count_occ. Qed.

Lemma smallest_most_frequent_unique (x : list Z) (v v' : Z) :
  smallest_most_frequent v x -> smallest_most_frequent v' x -> v = v'.
Proof.
  intros [Hmf Hmin] [Hmf' Hmin'].
  pose proof (Hmin v' Hmf'). pose proof (Hmin' v Hmf). lia.
Qed.

(** The table of counts does not depend on the order of the labels. *)
Lemma bincount_Permutation (x x' : list Z) :
  x ≡ₚ x' -> np.bincount x = np.bincount x'.
Proof.
  intros Hp. destruct x as [|x0 x].
  { apply Permutation_nil in Hp. by subst. }
  destruct x' as [|x0' x'].
  { symmetry in Hp. by apply Permutation_nil in Hp. }
  unfold np.bincount.
  destruct (np.minmax x0 x) as [mn mx] eqn:Hmm.
  destruct (np.minmax x0' x') as [mn' mx'] eqn:Hmm'.
  apply minmax_spec in Hmm as [[Hmnin Hmn] [Hmxin Hmx]].
  apply minmax_spec in Hmm' as [[Hmnin' Hmn'] [Hmxin' Hmx']].
  rewrite Forall_forall in Hmn, Hmx, Hmn', Hmx'.
  assert (mn = mn') as <-.
  { rewrite Hp in Hmnin. rewrite <- Hp in Hmnin'.
    pose proof (Hmn _ Hmnin'). pose proof (Hmn' _ Hmnin). lia. }
  assert (mx = mx') as <-.
  { rewrite Hp in Hmxin. rewrite <- Hp in Hmxin'.
    pose proof (Hmx _ Hmxin'). pose proof (Hmx' _ Hmxin). lia. }
  destruct (mn <? 0); [done|]. cbn zeta.
  destruct (np.wrap64 (mx + 1) <? 0); [done|]. f_equal.
  apply list_eq. intros k. rewrite !bincount_fold_lookup.
  assert (map Z.to_nat (x0 :: x) ≡ₚ map Z.to_nat (x0' :: x')) as Hp'
    by by apply Permutation_map.
  by rewrite (proj1 (Permutation_count_occ Nat.eq_dec _ _) Hp' k).
Qed.

(** A vote does not depend on the order of the predictions. *)
Lemma vote_Permutation (x x' : list Z) : x ≡ₚ x' -> vote x = vote x'.
Proof. intros Hp. unfold vote. by rewrite (bincount_Permutation x x' Hp). Qed.

(** X2.  Listing the models in another order does not change what the
    reducer returns or raises. *)
Theorem majority_voting_row_order (a : np.ndarray) (rows' : list (list Z)) :
  rows' ≡ₚ np.rows a ->
  majority_voting (np.mk_ndarray (np.nrows a) (np.ncols a) rows') = majority_voting a.
Proof.
  intros Hp. unfold majority_voting, np.apply_along_axis0. cbn [np.ncols].
  destruct (np.ncols a) as [|n]; [done|].
  rewrite !traverse_map. apply traverse_ext_in. intros i _.
  apply vote_Permutation. unfold np.column. cbn [np.rows].
  by apply Permutation_map.
Qed.

Lemma majority_voting_row_order_witness :
  majority_voting (np.mk_ndarray 3 3 [[1; 1; 0]; [0; 1; 1]; [0; 1; 1]])
  = majority_voting scenario_3x3.
Proof.
  apply (majority_voting_row_order scenario_3x3 [[1; 1; 0]; [0; 1; 1]; [0; 1; 1]]).
  apply perm_swap.
Defined.

(** *** Majorities *)




(** The first index of the largest count is the only index whose count
    no other exceeds and no earlier one reaches. *)
Lemma argmax_unique (l : list nat) (k m : nat) :
  l !! k = Some m ->
  (forall j c, l !! j = Some c -> (c <= m)%nat /\ ((j < k)%nat -> (c < m)%nat)) ->
  np.argmax l = Ok k.
Proof.
  intros Hk Hmax.
  assert (l <> []) as Hne by (by intros ->).
  destruct (argmax_spec l Hne) as (k' & m' & Ham & Hk' & Hmax').
  rewrite Ham. f_equal.
  destruct (Hmax k' m' Hk') as [Hle Hlt]. destruct (Hmax' k m Hk) as [Hle' Hlt'].
  destruct (decide (k' < k)%nat); [specialize (Hlt ltac:(done)); lia|].
  destruct (decide (k < k')%nat); [specialize (Hlt' ltac:(done)); lia|].
  lia.
Qed.

(** One more occurrence of the winner leaves it the winner. *)
Lemma argmax_alter (l : list nat) (k : nat) :
  np.argmax l = Ok k -> np.argmax (alter S k l) = Ok k.
Proof.
  intros Hk.
  assert (l <> []) as Hne by (by intros ->).
  destruct (argmax_spec l Hne) as (k' & m & Ham & Hm & Hmax).
  rewrite Hk in Ham. injection Ham as <-.
  apply (argmax_unique _ k (S m)).
  - by rewrite list_lookup_alter_eq, Hm.
  - intros j c Hj. destruct (decide (j = k)) as [->|Hjk].
    + rewrite list_lookup_alter_eq, Hm in Hj. injection Hj as <-. lia.
    + rewrite list_lookup_alter_ne in Hj by done.
      destruct (Hmax j c Hj) as [Hle Hlt]. split; [lia|].
      intros Hjlt. specialize (Hlt Hjlt). lia.
Qed.

(** One more vote for the winner of a column leaves it the winner. *)
Lemma vote_snoc (x : list Z) (v : Z) : vote x = Ok v -> vote (x ++ [v]) = Ok v.
Proof.
  intros Hv. pose proof (vote_Ok_inv x v Hv) as [Hne Hnn].
  destruct x as [|x0 x]; [done|]. clear Hne.
  unfold vote, np.bincount in Hv |- *. cbn [app].
  destruct (np.minmax x0 x) as [mn mx] eqn:Hmm.
  destruct (np.minmax x0 (x ++ [v])) as [mn' mx'] eqn:Hmm'.
  apply minmax_spec in Hmm as [[Hmnin Hmn] [Hmxin Hmx]].
  apply minmax_spec in Hmm' as [[Hmnin' Hmn'] [Hmxin' Hmx']].
  destruct (Z.ltb_spec mn 0) as [|Hmn0]; [done|]. cbn zeta in Hv.
  destruct (Z.ltb_spec (np.wrap64 (mx + 1)) 0) as [|Hsize]; [done|].
  cbn [bind] in Hv.
  set (T := fold_left (fun ans u => alter S (Z.to_nat u) ans) (x0 :: x)
              (replicate (Z.to_nat (np.wrap64 (mx + 1))) 0%nat)) in Hv.
  destruct (np.argmax T) as [k|e] eqn:Hk; [|done].
  cbn [bind] in Hv. injection Hv as <-.
  assert (Z.of_nat k <= mx) as Hkmx.
  { assert (k < length T)%nat as Hlt.
    { destruct (argmax_spec T) as (k' & m & Ham & Hm & _); [by intros HT; rewrite HT in Hk|].
      rewrite Hk in Ham. injection Ham as <-. apply lookup_lt_is_Some. by eexists. }
    unfold T in Hlt. rewrite bincount_fold_length, length_replicate in Hlt.
    rewrite Forall_forall in Hmn. pose proof (Hmn _ Hmxin).
    pose proof (wrap64_le (mx + 1)). lia. }
  rewrite Forall_forall in Hmn, Hmx, Hmn', Hmx'.
  assert (0 <= mn') as Hmn0'.
  { change (x0 :: x ++ [Z.of_nat k]) with ((x0 :: x) ++ [Z.of_nat k]) in Hmnin'.
    apply elem_of_app in Hmnin' as [Hin|Hin].
    - pose proof (Hmn _ Hin). lia.
    - apply list_elem_of_singleton in Hin as ->. lia. }
  assert (mx' = mx) as ->.
  { assert (mx <= mx') by (apply Hmx'; rewrite app_comm_cons; apply elem_of_app; by left).
    change (x0 :: x ++ [Z.of_nat k]) with ((x0 :: x) ++ [Z.of_nat k]) in Hmxin'.
    apply elem_of_app in Hmxin' as [Hin|Hin].
    - pose proof (Hmx _ Hin). lia.
    - apply list_elem_of_singleton in Hin. lia. }
  destruct (Z.ltb_spec mn' 0); [lia|]. cbn zeta.
  destruct (Z.ltb_spec (np.wrap64 (mx + 1)) 0); [lia|]. cbn [bind].
  rewrite app_comm_cons, fold_left_app. fold T. cbn [fold_left].
  rewrite Nat2Z.id, (argmax_alter T k Hk). done.
Qed.

(** X4.  The consensus is stable under its own vote: adding the consensus
    vector to the models as one more row gives the same consensus. *)
Theorem majority_voting_consensus_as_model (a : np.ndarray) (r : list Z) :
  np.wf a -> majority_voting a = Ok r ->
  majority_voting (np.mk_ndarray (S (np.nrows a)) (np.ncols a) (np.rows a ++ [r]))
  = Ok r.
Proof.
  intros _ Hr. rewrite <- Hr.
  unfold majority_voting, np.apply_along_axis0 in Hr |- *. cbn [np.ncols].
  destruct (np.ncols a) as [|n] eqn:HN; [done|]. rewrite <- HN in Hr |- *.
  rewrite !traverse_map. apply traverse_ext_in. intros i Hi.
  apply elem_of_seq in Hi as [_ Hi]. cbn in Hi.
  apply traverse_Ok_inv in Hr.
  assert (map (np.column a) (seq 0 (np.ncols a)) !! i = Some (np.column a i)) as Hc.
  { by rewrite lookup_map, lookup_seq_lt. }
  destruct (Forall2_lookup_l _ _ _ _ _ Hr Hc) as (v & Hri & Hv).
  unfold np.column at 1. cbn [np.rows]. rewrite map_app. cbn [map].
  rewrite (nth_lookup_Some r i 0 v Hri).
  fold (np.column a i). rewrite Hv. by apply vote_snoc.
Qed.

Lemma majority_voting_consensus_as_model_witness :
  majority_voting
    (np.mk_ndarray (S (np.nrows scenario_3x3)) (np.ncols scenario_3x3)
       (np.rows scenario_3x3 ++ [[0; 1; 1]]))
  = Ok [0; 1; 1].
Proof.
  apply (majority_voting_consensus_as_model scenario_3x3 [0; 1; 1]).
  - exact scenario_3x3_wf.
  - reflexivity.
Defined.

(** ** Text: numerals and paths *)

Lemma str_int_inj (z1 z2 : Z) : str_int z1 = str_int z2 -> z1 = z2.
Proof.
  intros H. assert (pd.int_cell (str_int z1) = pd.int_cell (str_int z2)) as Hc
    by by rewrite H.
  rewrite !int_cell_str_int in Hc. by injection Hc.
Qed.

Lemma append_inv_l (p a b : string) : (p +:+ a = p +:+ b)%string -> a = b.
Proof.
  induction p as [|c p IH]; [done|].
  rewrite !append_cons. intros [= H]. by apply IH.
Qed.

Lemma length_append (a b : string) :
  String.length (a +:+ b) = (String.length a + String.length b)%nat.
Proof.
  induction a as [|c a IH]; [done|].
  rewrite append_cons. cbn [String.length]. by rewrite IH.
Qed.

Lemma append_inv_r (c a b : string) : (a +:+ c = b +:+ c)%string -> a = b.
Proof.
  revert b. induction a as [|x a IH]; intros [|y b] H.
  - done.
  - apply (f_equal String.length) in H. rewrite !length_append in H.
    cbn [String.length] in H. lia.
  - apply (f_equal String.length) in H. rewrite !length_append in H.
    cbn [String.length] in H. lia.
  - rewrite !append_cons in H. injection H as -> H. f_equal. by apply IH.
Qed.

Lemma startswith_has_char (c : ascii) (s : string) :
  has_char c s = false -> startswith c s = false.
Proof.
  destruct s as [|c' s]; [done|]. cbn [has_char startswith].
  intros H. by apply orb_false_iff in H as [-> _].
Qed.

Lemma endswith_has_char (c : ascii) (s : string) :
  has_char c s = false -> endswith c s = false.
Proof.
  induction s as [|c' s IH]; [done|]. cbn [has_char endswith].
  intros H. apply orb_false_iff in H as [Hc Hs].
  destruct s; [done|]. by apply IH.
Qed.

Lemma endswith_append (c : ascii) (a b : string) :
  b <> EmptyString -> endswith c (a +:+ b) = endswith c b.
Proof.
  intros Hb. induction a as [|x a IH]; [done|].
  rewrite append_cons. cbn [endswith].
  destruct (a +:+ b)%string eqn:Hab; [|done].
  apply (f_equal String.length) in Hab. rewrite length_append in Hab.
  destruct b; [done|]. cbn [String.length] in Hab. lia.
Qed.

Lemma str_int_no_slash (z : Z) : has_char slash (str_int z) = false.
Proof. by apply str_int_chars. Qed.

(** The directory part that [os.path.join] builds from a model path. *)
Lemma join2_str_int (path : string) (z : Z) :
  os_path.join2 path (str_int z)
  = ((if String.eqb path "" || endswith slash path then path else path +:+ "/")
       +:+ str_int z)%string.
Proof.
  unfold os_path.join2.
  rewrite (startswith_has_char slash _ (str_int_no_slash z)).
  destruct (String.eqb path "" || endswith slash path); [done|].
  by rewrite append_assoc.
Qed.

(** The file of a model and an experiment, spelled out. *)
Lemma file_path_eq (path : string) (experiment : Z) :
  file_path path experiment
  = ((if String.eqb path "" || endswith slash path then path else path +:+ "/")
       +:+ str_int experiment +:+ "/" +:+ pred_file_name)%string.
Proof.
  unfold file_path, os_path.join. cbn [fold_left]. rewrite join2_str_int.
  set (dir := if String.eqb path "" || endswith slash path then path
              else (path +:+ "/")%string).
  unfold os_path.join2. cbn [startswith pred_file_name]. cbn.
  rewrite endswith_append by apply str_int_nonempty.
  rewrite (endswith_has_char slash _ (str_int_no_slash experiment)).
  assert ((dir +:+ str_int experiment)%string <> EmptyString) as Hne.
  { intros H. apply (f_equal String.length) in H. rewrite length_append in H.
    pose proof (str_int_nonempty experiment).
    destruct (str_int experiment); [done|]. cbn [String.length] in H. lia. }
  apply String.eqb_neq in Hne. rewrite Hne. cbn [orb].
  by rewrite append_assoc.
Qed.

(** X5.  A trailing slash on a model directory does not change the file
    that is read for it. *)
Theorem file_path_trailing_slash (path : string) (experiment : Z) :
  path <> EmptyString -> endswith slash path = false ->
  file_path (path +:+ "/") experiment = file_path path experiment.
Proof.
  intros Hne Hend. rewrite !file_path_eq.
  rewrite (endswith_append slash path "/") by done.
  apply String.eqb_neq in Hne. rewrite Hne, Hend. cbn [endswith Ascii.eqb orb].
  rewrite orb_true_r. reflexivity.
Qed.

Lemma file_path_trailing_slash_witness :
  file_path ("../ensembler/results/gpt2" +:+ "/") 3
  = file_path "../ensembler/results/gpt2" 3.
Proof.
  apply (file_path_trailing_slash "../ensembler/results/gpt2" 3).
  - discriminate.
  - reflexivity.
Defined.

(** X6.  For one model directory, different experiments read different
    files. *)
Theorem file_path_experiment_distinct (path : string) (e1 e2 : Z) :
  e1 <> e2 -> file_path path e1 <> file_path path e2.
Proof.
  intros Hne H. rewrite !file_path_eq in H.
  apply append_inv_l in H. apply append_inv_r in H. by apply str_int_inj in H.
Qed.

Lemma file_path_experiment_distinct_witness :
  file_path "../ensembler/results/gpt2" 1 <> file_path "../ensembler/results/gpt2" 2.
Proof.
  apply (file_path_experiment_distinct "../ensembler/results/gpt2" 1 2). lia.
Defined.

(** ** The output files *)

(** Two strings that differ inside their literal prefixes. *)
Ltac prefix_mismatch H := exfalso; vm_compute in H; discriminate H.

Lemma ensemble_file_name_inj (e1 e2 : Z) :
  ensemble_file_name e1 = ensemble_file_name e2 -> e1 = e2.
Proof.
  unfold ensemble_file_name. cbn [all_models]. intros H.
  apply append_inv_l in H. by apply str_int_inj.
Qed.

Lemma directory_no_slash (s : string) :
  has_char slash s = false -> directory s = None.
Proof.
  induction s as [|c s IH]; [done|]. cbn [has_char directory]. intros H.
  apply orb_false_iff in H as [Hc Hs]. by rewrite (IH Hs), Hc.
Qed.

Lemma directory_file (d name : string) :
  has_char slash name = false -> directory (d +:+ String slash name) = Some d.
Proof.
  intros Hname. induction d as [|c d IH].
  - rewrite append_empty_l. cbn [directory].
    by rewrite (directory_no_slash name Hname), Ascii.eqb_refl.
  - rewrite append_cons. cbn [directory]. by rewrite IH.
Qed.

(** X7.  For names without a path separator, the predictions file, the
    scores file and the matrix file lie in three different directories,
    [../ensembler/predictions], [../ensembler/scores] and
    [../ensembler/matrix]; so they are three different files, whatever the
    names they are saved under, and no writer overwrites what another one
    wrote. *)
Theorem output_kinds_distinct (n n' : string) :
  has_char slash n = false -> has_char slash n' = false ->
  (directory (predictions_file n) = Some "../ensembler/predictions"%string /\
   directory (scores_file n) = Some "../ensembler/scores"%string /\
   directory (matrix_file n) = Some "../ensembler/matrix"%string) /\
  predictions_file n <> scores_file n' /\
  predictions_file n <> matrix_file n' /\
  scores_file n <> matrix_file n'.
Proof.
  intros Hn _. split; [|split_and!; intros H; prefix_mismatch H].
  split_and!.
  - change (predictions_file n)
      with ("../ensembler/predictions" +:+ String slash (n +:+ ".csv"))%string.
    apply directory_file. by rewrite has_char_append, Hn.
  - change (scores_file n)
      with ("../ensembler/scores" +:+ String slash (n +:+ ".txt"))%string.
    apply directory_file. by rewrite has_char_append, Hn.
  - change (matrix_file n)
      with ("../ensembler/matrix" +:+ String slash (n +:+ "_matrix.csv"))%string.
    apply directory_file. by rewrite has_char_append, Hn.
Qed.

Lemma output_kinds_distinct_witness :
  (directory (predictions_file (ensemble_file_name 1))
   = Some "../ensembler/predictions"%string /\
   directory (scores_file (ensemble_file_name 1)) = Some "../ensembler/scores"%string /\
   directory (matrix_file (ensemble_file_name 1)) = Some "../ensembler/matrix"%string) /\
  predictions_file (ensemble_file_name 1) <> scores_file (ensemble_file_name 2) /\
  predictions_file (ensemble_file_name 1) <> matrix_file (ensemble_file_name 2) /\
  scores_file (ensemble_file_name 1) <> matrix_file (ensemble_file_name 2).
Proof.
  apply (output_kinds_distinct (ensemble_file_name 1) (ensemble_file_name 2));
    reflexivity.
Defined.

(** X8.  Two different experiments share none of their three output
    files. *)
Theorem output_files_per_experiment (e1 e2 : Z) :
  e1 <> e2 ->
  predictions_file (ensemble_file_name e1) <> predictions_file (ensemble_file_name e2) /\
  scores_file (ensemble_file_name e1) <> scores_file (ensemble_file_name e2) /\
  matrix_file (ensemble_file_name e1) <> matrix_file (ensemble_file_name e2).
Proof.
  intros Hne. split_and!; intros H; apply Hne, ensemble_file_name_inj.
  - unfold predictions_file in H. apply append_inv_l in H. by apply append_inv_r in H.
  - unfold scores_file in H. apply append_inv_l in H. by apply append_inv_r in H.
  - unfold matrix_file in H. apply append_inv_l in H. by apply append_inv_r in H.
Qed.

Lemma output_files_per_experiment_witness :
  predictions_file (ensemble_file_name 1) <> predictions_file (ensemble_file_name 2) /\
  scores_file (ensemble_file_name 1) <> scores_file (ensemble_file_name 2) /\
  matrix_file (ensemble_file_name 1) <> matrix_file (ensemble_file_name 2).
Proof. apply (output_files_per_experiment 1 2). lia. Defined.

(** ** The predictions writer *)

(** X9.  Whatever non-empty integer vector is saved, negative labels
    included, reading the predictions file back gives a frame whose only
    column, [prediction], is that vector.  (The empty vector is left out:
    pandas reads a column without rows back with another dtype.) *)
Theorem save_ensemble_predictions_read_back
    (v : list Z) (ensemble_file_name : string) (w : world) :
  v <> [] ->
  pd.read_csv (files (save_ensemble_predictions v ensemble_file_name w))
              (predictions_file ensemble_file_name)
  = Ok (pd.mk_DataFrame None [("prediction"%string, pd.IntCol v)]).
Proof.
  intros Hv. unfold save_ensemble_predictions, pd.read_csv. cbn [files write print].
  rewrite lookup_insert_eq. by apply parse_csv_one_column.
Qed.

Lemma save_ensemble_predictions_read_back_witness :
  pd.read_csv (files (save_ensemble_predictions [3; -1; 0] "MV_ens_all_models_exp_1"
                        empty_world))
              (predictions_file "MV_ens_all_models_exp_1")
  = Ok (pd.mk_DataFrame None [("prediction"%string, pd.IntCol [3; -1; 0])]).
Proof.
  apply (save_ensemble_predictions_read_back [3; -1; 0] "MV_ens_all_models_exp_1"
           empty_world).
  discriminate.
Defined.

(** X10.  Saving under a name replaces what was saved under it before: the
    files after two saves are those after the second save alone, and every
    other file is left as it was. *)
Theorem save_ensemble_predictions_overwrites
    (v1 v2 : list Z) (ensemble_file_name : string) (w : world) :
  files (save_ensemble_predictions v2 ensemble_file_name
           (save_ensemble_predictions v1 ensemble_file_name w))
  = files (save_ensemble_predictions v2 ensemble_file_name w) /\
  forall path, path <> predictions_file ensemble_file_name ->
    files (save_ensemble_predictions v2 ensemble_file_name w) !! path
    = files w !! path.
Proof.
  unfold save_ensemble_predictions. cbn [files write print]. split.
  - apply insert_insert_eq.
  - intros path Hpath. by rewrite lookup_insert_ne.
Qed.

(** ** The result loader: what a successful load means, and failures *)

(** X11.  When the loader returns, every path had a file with a
    [Prediction] column, row k of the predictions is the column of path k,
    and the ground truth is the [label] column of the first file. *)
Theorem load_results_Ok_inv
    (fs : gmap string string) (experiment : Z) (path : string) (paths : list string)
    (model_preds : list pd.column) (y_true_loaded : option pd.column) :
  load_results fs experiment (path :: paths) = Ok (model_preds, y_true_loaded) ->
  Forall2 (fun p c => read_prediction fs experiment p = Ok c) (path :: paths) model_preds /\
  exists df label,
    pd.read_csv fs (file_path path experiment) = Ok df /\
    pd.getitem df "label" = Ok label /\ y_true_loaded = Some label.
Proof.
  unfold load_results. cbn [load_loop].
  destruct (pd.read_csv fs (file_path path experiment)) as [df|e] eqn:Hdf;
    cbn [bind]; [|done].
  destruct (pd.getitem df "Prediction") as [c|e] eqn:Hc; cbn [bind]; [|done].
  destruct (pd.getitem df "label") as [label|e] eqn:Hl; cbn [bind]; [|done].
  rewrite load_loop_keeps_ground_truth.
  destruct (traverse (read_prediction fs experiment) paths) as [cols|e] eqn:Hcols;
    cbn [bind]; [|done].
  intros [= <- <-]. split.
  - cbn [app]. constructor; [|by apply traverse_Ok_inv].
    unfold read_prediction. by rewrite Hdf.
  - by exists df, label.
Qed.

Lemma load_results_Ok_inv_witness :
  Forall2 (fun p c => read_prediction two_models 1 p = Ok c) ["m1"; "m2"]%string
          [pd.IntCol [1; 0]; pd.IntCol [1; 1]] /\
  exists df label,
    pd.read_csv two_models (file_path "m1" 1) = Ok df /\
    pd.getitem df "label" = Ok label /\ Some (pd.IntCol [1; 0]) = Some label.
Proof.
  apply (load_results_Ok_inv two_models 1 "m1" ["m2"]%string). vm_compute. reflexivity.
Defined.

Lemma traverse_app_Raise {A B : Type} (f : A -> result B)
    (before : list A) (x : A) (after : list A) (e : exn) :
  Forall (fun q => exists c, f q = Ok c) before -> f x = Raise e ->
  traverse f (before ++ x :: after) = Raise e.
Proof.
  intros Hbefore Hx. induction Hbefore as [|q before [c Hq] _ IH]; cbn [app traverse].
  - by rewrite Hx.
  - rewrite Hq. cbn [bind]. by rewrite IH.
Qed.

(** X12.  The loader raises FileNotFoundError at the first path whose file
    does not exist, when the files before it have their [Prediction] column
    and the very first one its [label] column; the files after it are not
    looked at. *)
Theorem load_results_missing_file
    (fs : gmap string string) (experiment : Z)
    (before : list string) (p : string) (after : list string) :
  Forall (fun q => exists c, read_prediction fs experiment q = Ok c) before ->
  (forall q df, head before = Some q ->
     pd.read_csv fs (file_path q experiment) = Ok df ->
     exists label, pd.getitem df "label" = Ok label) ->
  fs !! file_path p experiment = None ->
  load_results fs experiment (before ++ p :: after) = Raise FileNotFoundError.
Proof.
  intros Hbefore Hlabel Hp.
  assert (read_prediction fs experiment p = Raise FileNotFoundError) as Hrp.
  { unfold read_prediction, pd.read_csv. by rewrite Hp. }
  destruct before as [|q before]; unfold load_results; cbn [app load_loop].
  - unfold pd.read_csv. by rewrite Hp.
  - apply Forall_cons in Hbefore as [[c Hq] Hbefore]. unfold read_prediction in Hq.
    destruct (pd.read_csv fs (file_path q experiment)) as [df|e] eqn:Hdf; [|done].
    cbn [bind] in Hq |- *. rewrite Hq. cbn [bind].
    destruct (Hlabel q df) as [label Hl]; [done|done|]. rewrite Hl. cbn [bind].
    rewrite load_loop_keeps_ground_truth.
    by rewrite (traverse_app_Raise _ before p after FileNotFoundError Hbefore Hrp).
Qed.

Lemma load_results_missing_file_witness :
  load_results two_models 1 (["m1"; "m2"] ++ "m3" :: ["m4"])
  = Raise FileNotFoundError.
Proof.
  apply (load_results_missing_file two_models 1 ["m1"; "m2"]%string "m3" ["m4"]%string).
  - repeat constructor; eexists; vm_compute; reflexivity.
  - intros q df [= <-]. vm_compute. intros [= <-]. eexists. reflexivity.
  - vm_compute. reflexivity.
Defined.

(** ** The body of the loop: models with different numbers of samples *)

Lemma array_ragged (r0 r : list Z) (rest : list (list Z)) :
  r ∈ rest -> length r <> length r0 -> np.array (r0 :: rest) = Raise ValueError.
Proof.
  intros Hr Hlen. unfold np.array.
  destruct (forallb _ rest) eqn:Hall; [|done].
  rewrite forallb_forall in Hall. apply list_elem_of_In in Hr.
  apply Hall, Nat.eqb_eq in Hr. done.
Qed.

(** X13.  Integer prediction columns that do not all have the length of
    the first one stop the experiment with ValueError: samples are never
    voted on across misaligned files. *)
Theorem experiment_body_ragged
    (classification_report : list Z -> list Z -> result string)
    (reduce_other_dtype : list pd.column -> result (list Z))
    (score_other_dtype : list string -> list Z -> string -> world -> result world)
    (experiment : Z) (w : world)
    (model_preds : list pd.column) (y_true_loaded : option pd.column)
    (r0 r : list Z) (rest : list (list Z)) :
  load_results (files w) experiment preds_path = Ok (model_preds, y_true_loaded) ->
  mapM int_values model_preds = Some (r0 :: rest) ->
  r ∈ rest -> length r <> length r0 ->
  experiment_body classification_report reduce_other_dtype score_other_dtype
    experiment w
  = Raise ValueError.
Proof.
  intros Hload Hint Hr Hlen. unfold experiment_body.
  rewrite Hload. cbn [bind fst snd]. rewrite Hint.
  by rewrite (array_ragged r0 r rest Hr Hlen).
Qed.

Lemma experiment_body_ragged_witness :
  experiment_body report_stub reduce_stub score_stub 1 six_models_ragged
  = Raise ValueError.
Proof.
  apply (experiment_body_ragged report_stub reduce_stub score_stub 1 six_models_ragged
           [pd.IntCol [0; 1; 1; 0]; pd.IntCol [0; 1; 1; 1]; pd.IntCol [0; 1; 0];
            pd.IntCol [0; 1; 1; 1]; pd.IntCol [0; 0; 1; 1]; pd.IntCol [1; 1; 1; 1]]
           (Some (pd.IntCol [0; 1; 0; 1]))
           [0; 1; 1; 0] [0; 1; 0]
           [[0; 1; 1; 1]; [0; 1; 0]; [0; 1; 1; 1]; [0; 0; 1; 1]; [1; 1; 1; 1]]).
  - vm_compute. reflexivity.
  - reflexivity.
  - right. left.
  - simpl. lia.
Defined.

(** ** The confusion-matrix writer: when it succeeds, what it counts *)

(** X14.  The confusion-matrix writer succeeds exactly on vectors of the
    same length that hold two distinct labels between them; on all other
    integer vectors, those with a single class included, it raises
    ValueError. *)
Theorem save_confusion_matrix_domain
    (y_true ensembler_pred : list Z) (ensemble_file_name : string) (w : world) :
  (length y_true = length ensembler_pred /\
   length (sk.unique_labels y_true ensembler_pred) = 2%nat ->
   exists w', save_confusion_matrix y_true ensembler_pred ensemble_file_name w = Ok w') /\
  (~ (length y_true = length ensembler_pred /\
      length (sk.unique_labels y_true ensembler_pred) = 2%nat) ->
   save_confusion_matrix y_true ensembler_pred ensemble_file_name w = Raise ValueError).
Proof.
  unfold save_confusion_matrix, sk.confusion_matrix.
  destruct (Nat.eqb_spec (length y_true) (length ensembler_pred)) as [Hlen|Hlen];
    cbn [bind].
  - unfold pd.DataFrame2. cbn [np.nrows np.ncols length].
    destruct (Nat.eqb_spec (length (sk.unique_labels y_true ensembler_pred)) 2)
      as [HC|HC]; cbn [andb bind].
    + split; [eauto|]. intros H. destruct H. done.
    + split; [|done]. intros [_ H]. done.
  - split; [|done]. intros [H _]. done.
Qed.

Lemma save_confusion_matrix_domain_witness :
  (length [0; 0; 0] = length [0; 0; 0] /\
   length (sk.unique_labels [0; 0; 0] [0; 0; 0]) = 2%nat ->
   exists w', save_confusion_matrix [0; 0; 0] [0; 0; 0] "MV_ens_all_models_exp_1"
                empty_world = Ok w') /\
  (~ (length [0; 0; 0] = length [0; 0; 0] /\
      length (sk.unique_labels [0; 0; 0] [0; 0; 0]) = 2%nat) ->
   save_confusion_matrix [0; 0; 0] [0; 0; 0] "MV_ens_all_models_exp_1" empty_world
   = Raise ValueError).
Proof.
  apply (save_confusion_matrix_domain [0; 0; 0] [0; 0; 0] "MV_ens_all_models_exp_1"
           empty_world).
Defined.

(** *** The labels of the table *)

Lemma elem_of_insert_sorted (v : Z) (l : list Z) (x : Z) :
  x ∈ sk.insert_sorted v l <-> x = v \/ x ∈ l.
Proof.
  induction l as [|h t IH]; cbn [sk.insert_sorted].
  - rewrite list_elem_of_singleton. rewrite elem_of_nil. tauto.
  - destruct (Z.ltb_spec v h); [by rewrite elem_of_cons|].
    destruct (Z.eqb_spec v h) as [->|].
    + rewrite elem_of_cons. tauto.
    + rewrite !elem_of_cons, IH. tauto.
Qed.

Lemma elem_of_unique_labels (y_true y_pred : list Z) (x : Z) :
  x ∈ sk.unique_labels y_true y_pred <-> x ∈ y_true \/ x ∈ y_pred.
Proof.
  unfold sk.unique_labels. rewrite <- elem_of_app.
  induction (y_true ++ y_pred) as [|v l IH]; cbn [fold_right]; [done|].
  rewrite elem_of_insert_sorted, IH, elem_of_cons. tauto.
Qed.

Lemma insert_sorted_increasing (v : Z) (l : list Z) :
  StronglySorted Z.lt l -> StronglySorted Z.lt (sk.insert_sorted v l).
Proof.
  induction 1 as [|h t Ht IH Hh]; cbn [sk.insert_sorted].
  - repeat constructor.
  - destruct (Z.ltb_spec v h).
    + constructor; [by constructor|]. constructor; [done|].
      eapply Forall_impl; [exact Hh|]. simpl. lia.
    + destruct (Z.eqb_spec v h); [by constructor|].
      constructor; [done|]. apply Forall_forall. intros x Hx.
      apply elem_of_insert_sorted in Hx as [->|Hx]; [lia|].
      rewrite Forall_forall in Hh. by apply Hh.
Qed.

(** The labels of the table are in increasing order, without repetition. *)
Lemma unique_labels_increasing (y_true y_pred : list Z) :
  StronglySorted Z.lt (sk.unique_labels y_true y_pred).
Proof.
  unfold sk.unique_labels. induction (y_true ++ y_pred) as [|v l IH]; cbn [fold_right].
  - constructor.
  - by apply insert_sorted_increasing.
Qed.

Lemma increasing_NoDup (l : list Z) : StronglySorted Z.lt l -> NoDup l.
Proof.
  induction 1 as [|h t Ht IH Hh]; [constructor|].
  apply NoDup_cons. split; [|done]. intros Hin.
  rewrite Forall_forall in Hh. specialize (Hh h Hin). lia.
Qed.

(** *** Sums *)

Lemma sumZ_cons (x : Z) (l : list Z) : sumZ (x :: l) = x + sumZ l.
Proof. reflexivity. Qed.

Lemma sumZ_map_add {A : Type} (f g : A -> Z) (l : list A) :
  sumZ (map (fun a => f a + g a) l) = sumZ (map f l) + sumZ (map g l).
Proof.
  induction l as [|a l IH]; [done|].
  cbn [map]. rewrite !sumZ_cons, IH. lia.
Qed.

Lemma sumZ_map_zero {A : Type} (l : list A) : sumZ (map (fun _ => 0) l) = 0.
Proof.
  induction l as [|a l IH]; [done|].
  cbn [map]. by rewrite sumZ_cons, IH.
Qed.

(** Among distinct labels, exactly one equals a given member. *)
Lemma sumZ_indicator (c : Z) (l : list Z) :
  NoDup l ->
  sumZ (map (fun a => if decide (c = a) then 1 else 0) l)
  = if decide (c ∈ l) then 1 else 0.
Proof.
  induction 1 as [|h t Hh _ IH]; [done|].
  cbn [map]. rewrite sumZ_cons, IH. destruct (decide (c = h)) as [->|Hne].
  - rewrite (decide_False (P := h ∈ t)) by done.
    rewrite decide_True by by left. lia.
  - destruct (decide (c ∈ t)).
    + rewrite decide_True by by right. lia.
    + rewrite decide_False; [lia|]. rewrite elem_of_cons. tauto.
Qed.

Lemma count_pairs_cons (a p : Z) (x : Z * Z) (pairs : list (Z * Z)) :
  sk.count_pairs a p (x :: pairs)
  = sk.count_pairs a p pairs
    + (if decide (fst x = a) then if decide (snd x = p) then 1 else 0 else 0).
Proof.
  unfold sk.count_pairs. rewrite filter_cons.
  destruct (decide (fst x = a /\ snd x = p)) as [[H1 H2]|Hn].
  - rewrite !decide_True by done. cbn [length]. lia.
  - destruct (decide (fst x = a)); [|lia].
    rewrite decide_False by tauto. lia.
Qed.

(** Every sample falls in exactly one cell of the table over [labels]. *)
Lemma count_pairs_total (labels : list Z) (pairs : list (Z * Z)) :
  NoDup labels ->
  Forall (fun x => fst x ∈ labels /\ snd x ∈ labels) pairs ->
  sumZ (map (fun a => sumZ (map (fun p => sk.count_pairs a p pairs) labels)) labels)
  = Z.of_nat (length pairs).
Proof.
  intros Hnd. induction 1 as [|x pairs [Hfst Hsnd] _ IH].
  - rewrite (map_ext _ (fun _ => 0)); [apply sumZ_map_zero|].
    intros a. rewrite (map_ext _ (fun _ => 0)); [apply sumZ_map_zero|done].
  - rewrite (map_ext _ (fun a =>
               sumZ (map (fun p => sk.count_pairs a p pairs) labels)
               + (if decide (fst x = a) then 1 else 0))).
    + rewrite sumZ_map_add, IH, (sumZ_indicator (fst x) labels Hnd).
      rewrite decide_True by done. cbn [length]. lia.
    + intros a.
      rewrite (map_ext _ (fun p =>
                 sk.count_pairs a p pairs
                 + (if decide (fst x = a) then if decide (snd x = p) then 1 else 0
                    else 0))) by (intros p; apply count_pairs_cons).
      rewrite sumZ_map_add. f_equal.
      destruct (decide (fst x = a)); [|apply sumZ_map_zero].
      rewrite (sumZ_indicator (snd x) labels Hnd). by rewrite decide_True.
Qed.

(** X15.  The confusion matrix counts every sample exactly once: its
    entries add up to the number of samples. *)
Theorem confusion_matrix_counts_every_sample (y_true y_pred : list Z) (cm : np.ndarray) :
  sk.confusion_matrix y_true y_pred = Ok cm ->
  entries_sum cm = Z.of_nat (length y_true).
Proof.
  unfold sk.confusion_matrix.
  destruct (Nat.eqb_spec (length y_true) (length y_pred)) as [Hlen|]; [|done].
  intros [= <-]. unfold entries_sum. cbn [np.rows]. rewrite map_map.
  rewrite count_pairs_total.
  - f_equal. rewrite length_zip_with. lia.
  - apply increasing_NoDup, unique_labels_increasing.
  - apply Forall_forall. intros [t q] Hx. cbn [fst snd].
    rewrite !elem_of_unique_labels. split.
    + left. by apply elem_of_zip_l in Hx.
    + right. by apply elem_of_zip_r in Hx.
Qed.

Lemma confusion_matrix_counts_every_sample_witness :
  entries_sum (np.mk_ndarray 2 2 [[1; 1]; [0; 2]]) = Z.of_nat (length [0; 1; 0; 1]).
Proof.
  apply (confusion_matrix_counts_every_sample [0; 1; 0; 1] [0; 1; 1; 1]). reflexivity.
Defined.

(** ** The body of the loop: what a successful experiment leaves behind *)

(** The text of the matrix file, when the frame of the matrix can be
    built. *)
Lemma matrix_text (y_true y_pred : list Z) (cm : np.ndarray) (df_cm : pd.DataFrame) :
  sk.confusion_matrix y_true y_pred = Ok cm ->
  pd.DataFrame2 cm ["Actual 0"; "Actual 1"]%string ["Predicted 0"; "Predicted 1"]%string
    = Ok df_cm ->
  pd.to_csv df_cm true = labelled_table 2 (np.rows cm).
Proof.
  unfold sk.confusion_matrix.
  destruct (Nat.eqb (length y_true) (length y_pred)); [|done].
  intros [= <-]. unfold pd.DataFrame2. cbn [np.nrows np.ncols np.rows length].
  destruct (sk.unique_labels y_true y_pred) as [|l0 [|l1 [|l2 ls]]];
    cbn [length Nat.eqb andb]; try done.
  intros [= <-]. reflexivity.
Qed.

(** The world after a successful experiment whose ground truth is an
    integer column. *)
Lemma experiment_body_post
    (classification_report : list Z -> list Z -> result string)
    (reduce_other_dtype : list pd.column -> result (list Z))
    (score_other_dtype : list string -> list Z -> string -> world -> result world)
    (experiment : Z) (w w' : world)
    (model_preds : list pd.column) (y_true : list Z) :
  load_results (files w) experiment preds_path
    = Ok (model_preds, Some (pd.IntCol y_true)) ->
  experiment_body classification_report reduce_other_dtype score_other_dtype
    experiment w = Ok w' ->
  let name := ensemble_file_name experiment in
  exists (ensembler_pred : list Z) (score_en : string) (cm : np.ndarray),
    match mapM int_values model_preds with
    | Some rows => all_predictions <~ np.array rows ;; majority_voting all_predictions
    | None => reduce_other_dtype model_preds
    end = Ok ensembler_pred /\
    classification_report y_true ensembler_pred = Ok score_en /\
    sk.confusion_matrix y_true ensembler_pred = Ok cm /\
    files w'
    = <[matrix_file name := labelled_table 2 (np.rows cm)]>
        (<[scores_file name := score_en]>
           (<[predictions_file name
                := pd.to_csv (pd.DataFrame1 ensembler_pred "prediction") false]>
              (files w))) /\
    stdout w'
    = stdout w ++ [(predictions_file name +:+ " saved")%string]
        ++ [score_en] ++ [(scores_file name +:+ " saved")%string]
        ++ [(matrix_file name +:+ " saved")%string].
Proof.
  intros Hload Hbody name. unfold experiment_body in Hbody.
  rewrite Hload in Hbody. cbn [bind fst snd] in Hbody.
  destruct (match mapM int_values model_preds with
            | Some rows => _ | None => _ end) as [ensembler_pred|e]; [|done].
  cbn [bind SAVE all_models] in Hbody.
  subst name. unfold ensemble_file_name. cbn [all_models].
  unfold save_ensemble_scores in Hbody.
  destruct (classification_report y_true ensembler_pred) as [score_en|e] eqn:Hreport;
    [|done].
  cbn [bind] in Hbody. unfold save_confusion_matrix in Hbody.
  destruct (sk.confusion_matrix y_true ensembler_pred) as [cm|e] eqn:Hcm; [|done].
  cbn [bind] in Hbody.
  destruct (pd.DataFrame2 cm _ _) as [df_cm|e] eqn:Hdf; [|done].
  cbn [bind] in Hbody.
  rewrite (matrix_text y_true ensembler_pred cm df_cm Hcm Hdf) in Hbody.
  injection Hbody as <-.
  exists ensembler_pred, score_en, cm. split_and!; [done|done|done|reflexivity|].
  unfold print, write, save_ensemble_predictions. cbn [stdout].
  unfold print, write. cbn [stdout]. by rewrite <- !app_assoc.
Qed.

(** X16.  After a successful experiment whose ground truth is an integer
    column, the consensus is what the reducer returns on the loaded
    predictions, stacked as the rows of a matrix; the three output files
    hold that consensus written as CSV, its classification report, and
    the labelled 2 x 2 confusion matrix of the ground truth against it;
    four lines have been printed. *)
Theorem experiment_body_outputs
    (classification_report : list Z -> list Z -> result string)
    (reduce_other_dtype : list pd.column -> result (list Z))
    (score_other_dtype : list string -> list Z -> string -> world -> result world)
    (experiment : Z) (w w' : world)
    (model_preds : list pd.column) (y_true : list Z) :
  load_results (files w) experiment preds_path
    = Ok (model_preds, Some (pd.IntCol y_true)) ->
  experiment_body classification_report reduce_other_dtype score_other_dtype
    experiment w = Ok w' ->
  exists (ensembler_pred : list Z) (score_en : string) (cm : np.ndarray),
    match mapM int_values model_preds with
    | Some rows => all_predictions <~ np.array rows ;; majority_voting all_predictions
    | None => reduce_other_dtype model_preds
    end = Ok ensembler_pred /\
    classification_report y_true ensembler_pred = Ok score_en /\
    sk.confusion_matrix y_true ensembler_pred = Ok cm /\
    files w' !! predictions_file (ensemble_file_name experiment)
      = Some (pd.to_csv (pd.DataFrame1 ensembler_pred "prediction") false) /\
    files w' !! scores_file (ensemble_file_name experiment) = Some score_en /\
    files w' !! matrix_file (ensemble_file_name experiment)
      = Some (labelled_table 2 (np.rows cm)) /\
    stdout w'
    = stdout w
        ++ [(predictions_file (ensemble_file_name experiment) +:+ " saved")%string;
            score_en;
            (scores_file (ensemble_file_name experiment) +:+ " saved")%string;
            (matrix_file (ensemble_file_name experiment) +:+ " saved")%string].
Proof.
  intros Hload Hbody.
  destruct (experiment_body_post _ _ _ _ _ _ _ _ Hload Hbody)
    as (pred & score_en & cm & Hpred & Hreport & Hcm & Hfiles & Hout).
  exists pred, score_en, cm. rewrite Hfiles. split_and!; [done|done|done| | | |done].
  - rewrite lookup_insert_ne by (intros H; prefix_mismatch H).
    rewrite lookup_insert_ne by (intros H; prefix_mismatch H).
    by rewrite lookup_insert_eq.
  - rewrite lookup_insert_ne by (intros H; prefix_mismatch H).
    by rewrite lookup_insert_eq.
  - by rewrite lookup_insert_eq.
Qed.

Lemma six_models_load :
  load_results (files six_models) 1 preds_path
  = Ok (six_models_preds, Some (pd.IntCol [0; 1; 0; 1])).
Proof. vm_compute. reflexivity. Qed.

Lemma six_models_body :
  experiment_body report_stub reduce_stub score_stub 1 six_models = Ok six_models_after.
Proof. vm_compute. reflexivity. Qed.

Lemma experiment_body_outputs_witness :
  exists (ensembler_pred : list Z) (score_en : string) (cm : np.ndarray),
    match mapM int_values six_models_preds with
    | Some rows => all_predictions <~ np.array rows ;; majority_voting all_predictions
    | None => reduce_stub six_models_preds
    end = Ok ensembler_pred /\
    report_stub [0; 1; 0; 1] ensembler_pred = Ok score_en /\
    sk.confusion_matrix [0; 1; 0; 1] ensembler_pred = Ok cm /\
    files six_models_after !! predictions_file (ensemble_file_name 1)
      = Some (pd.to_csv (pd.DataFrame1 ensembler_pred "prediction") false) /\
    files six_models_after !! scores_file (ensemble_file_name 1) = Some score_en /\
    files six_models_after !! matrix_file (ensemble_file_name 1)
      = Some (labelled_table 2 (np.rows cm)) /\
    stdout six_models_after
    = stdout six_models
        ++ [(predictions_file (ensemble_file_name 1) +:+ " saved")%string;
            score_en;
            (scores_file (ensemble_file_name 1) +:+ " saved")%string;
            (matrix_file (ensemble_file_name 1) +:+ " saved")%string].
Proof.
  apply (experiment_body_outputs report_stub reduce_stub score_stub 1
           six_models six_models_after six_models_preds [0; 1; 0; 1]).
  - exact six_models_load.
  - exact six_models_body.
Defined.

(** X17.  A successful experiment whose ground truth is an integer column
    changes no file but its three output files; in particular the result
    files of the models, of every experiment, are left as they were. *)
Theorem experiment_body_keeps_inputs
    (classification_report : list Z -> list Z -> result string)
    (reduce_other_dtype : list pd.column -> result (list Z))
    (score_other_dtype : list string -> list Z -> string -> world -> result world)
    (experiment : Z) (w w' : world)
    (model_preds : list pd.column) (y_true : list Z) :
  load_results (files w) experiment preds_path
    = Ok (model_preds, Some (pd.IntCol y_true)) ->
  experiment_body classification_report reduce_other_dtype score_other_dtype
    experiment w = Ok w' ->
  (forall path,
     path <> predictions_file (ensemble_file_name experiment) ->
     path <> scores_file (ensemble_file_name experiment) ->
     path <> matrix_file (ensemble_file_name experiment) ->
     files w' !! path = files w !! path) /\
  (forall p e, p ∈ preds_path -> files w' !! file_path p e = files w !! file_path p e).
Proof.
  intros Hload Hbody.
  destruct (experiment_body_post _ _ _ _ _ _ _ _ Hload Hbody)
    as (pred & score_en & cm & _ & _ & _ & Hfiles & _).
  rewrite Hfiles.
  assert (Hframe : forall path,
            path <> predictions_file (ensemble_file_name experiment) ->
            path <> scores_file (ensemble_file_name experiment) ->
            path <> matrix_file (ensemble_file_name experiment) ->
            <[matrix_file (ensemble_file_name experiment)
                := labelled_table 2 (np.rows cm)]>
              (<[scores_file (ensemble_file_name experiment) := score_en]>
                 (<[predictions_file (ensemble_file_name experiment)
                      := pd.to_csv (pd.DataFrame1 pred "prediction") false]>
                    (files w))) !! path
            = files w !! path).
  { intros path H1 H2 H3. by rewrite !lookup_insert_ne. }
  split; [exact Hframe|].
  intros p e Hp. unfold preds_path in Hp.
  apply Hframe; intros H; rewrite file_path_eq in H;
    repeat (apply elem_of_cons in Hp as [->|Hp]; [prefix_mismatch H|]);
    by apply elem_of_nil in Hp.
Qed.

Lemma experiment_body_keeps_inputs_witness :
  (forall path,
     path <> predictions_file (ensemble_file_name 1) ->
     path <> scores_file (ensemble_file_name 1) ->
     path <> matrix_file (ensemble_file_name 1) ->
     files six_models_after !! path = files six_models !! path) /\
  (forall p e, p ∈ preds_path ->
     files six_models_after !! file_path p e = files six_models !! file_path p e).
Proof.
  apply (experiment_body_keeps_inputs report_stub reduce_stub score_stub 1
           six_models six_models_after six_models_preds [0; 1; 0; 1]).
  - exact six_models_load.
  - exact six_models_body.
Defined.

(** ** The loop over the experiments *)

Lemma run_app
    (classification_report : list Z -> list Z -> result string)
    (reduce_other_dtype : list pd.column -> result (list Z))
    (score_other_dtype : list string -> list Z -> string -> world -> result world)
    (es1 es2 : list Z) :
  forall w,
    run classification_report reduce_other_dtype score_other_dtype (es1 ++ es2) w
    = (w1 <~ run classification_report reduce_other_dtype score_other_dtype es1 w ;;
       run classification_report reduce_other_dtype score_other_dtype es2 w1).
Proof.
  induction es1 as [|e es1 IH]; intros w; cbn [app run]; [done|].
  destruct (experiment_body _ _ _ e w) as [w1|x]; cbn [bind]; [apply IH|done].
Qed.

(** X18.  The loop has no isolation between experiments: when the body
    raises for one experiment, the run raises that exception and the later
    experiments are not processed. *)
Theorem run_stops_at_first_failure
    (classification_report : list Z -> list Z -> result string)
    (reduce_other_dtype : list pd.column -> result (list Z))
    (score_other_dtype : list string -> list Z -> string -> world -> result world)
    (es1 : list Z) (e : Z) (es2 : list Z) (w w1 : world) (x : exn) :
  run classification_report reduce_other_dtype score_other_dtype es1 w = Ok w1 ->
  experiment_body classification_report reduce_other_dtype score_other_dtype e w1
    = Raise x ->
  run classification_report reduce_other_dtype score_other_dtype (es1 ++ e :: es2) w
  = Raise x.
Proof.
  intros Hes1 He. rewrite run_app, Hes1. cbn [bind run]. by rewrite He.
Qed.

Lemma run_stops_at_first_failure_witness :
  run report_stub reduce_stub score_stub ([1] ++ 2 :: [3; 4; 5]) six_models
  = Raise FileNotFoundError.
Proof.
  apply (run_stops_at_first_failure report_stub reduce_stub score_stub
           [1] 2 [3; 4; 5] six_models six_models_after FileNotFoundError).
  - cbn [run]. by rewrite six_models_body.
  - vm_compute. reflexivity.
Defined.

(** ** The environment *)

(** X19.  When the cell that selects the dataset folder finishes, the
    folder is left empty exactly when none of the variables that mark
    Kaggle, Google Cloud or Colab is set: each name that
    [get_notebook_environment] returns for a marked platform is one that
    the selection recognises.  The cell fails only on Colab, that is with
    [COLAB_GPU] set and the other two variables not set, and then with the
    exception of the import of [google.colab] or of the mount. *)
Theorem select_folder_empty_iff_local
    (drive_mount : result unit) (environ : gmap string string) :
  match select_folder drive_mount (get_notebook_environment environ) with
  | Ok folder =>
      folder = EmptyString <->
      environ !! "KAGGLE_URL_BASE"%string = None /\
      environ !! "GOOGLE_CLOUD_PROJECT"%string = None /\
      environ !! "COLAB_GPU"%string = None
  | Raise e =>
      drive_mount = Raise e /\
      environ !! "KAGGLE_URL_BASE"%string = None /\
      environ !! "GOOGLE_CLOUD_PROJECT"%string = None /\
      is_Some (environ !! "COLAB_GPU"%string)
  end.
Proof.
  unfold get_notebook_environment, in_environ.
  destruct (environ !! "KAGGLE_URL_BASE"%string) as [k|] eqn:HK.
  { rewrite bool_decide_eq_true_2 by eauto. cbn. split; [done|]. by intros [? _]. }
  rewrite bool_decide_eq_false_2 by (by intros [? ?]).
  destruct (environ !! "GOOGLE_CLOUD_PROJECT"%string) as [g|] eqn:HG.
  { rewrite bool_decide_eq_true_2 by eauto. cbn. split; [done|]. by intros (_ & ? & _). }
  rewrite bool_decide_eq_false_2 by (by intros [? ?]).
  destruct (environ !! "COLAB_GPU"%string) as [c|] eqn:HC.
  { rewrite bool_decide_eq_true_2 by eauto. cbn.
    destruct drive_mount as [[]|e]; cbn.
    - split; [done|]. by intros (_ & _ & ?).
    - split_and!; eauto. }
  rewrite bool_decide_eq_false_2 by (by intros [? ?]).
  cbn. done.
Qed.
